(** * Lunch Money client: marshaling and transaction grouping

    A shallow embedding of the client code of the repository:
    - [clients/python/lunchable/models/create_new_transactions201_response.py]
      (module [Model]),
    - [clients/python/lunchable/api/transactions_group_api.py]
      (module [GroupApi]),
    - [lunchmoney/models/budgets.py] (modules [Sdk] and [Budgets]),
    - [lunchmoney/sdk/transactions.py] (modules [Sdk] and [Update]).

    Python values are an inductive type, exceptions are the error side of a
    result type, and a call that reaches the remote service threads the state
    of that service explicitly. The parts of the package these files call
    but do not contain (the [ApiClient] helpers, the core client of the SDK,
    the item classes of the model, pydantic's validators) are parameters,
    gathered in type classes; [ApiClient.response_deserialize] and the remote
    service itself (module [Service]) are modelled from the specification. *)

From Stdlib Require Import ZArith List String Bool Lia DecimalString.
Set Warnings "-register-all".
Import ListNotations.
Open Scope string_scope.

(** ** Python values, exceptions and dictionaries *)

Module Py.

(** The categories of error the client surfaces for an HTTP status. *)
Inductive ApiErrorKind :=
| ValidationError
| AuthError
| NotFoundError
| RateLimitError
| ServerError.

(** The exceptions the embedded code can raise. [PydanticValidationError] is
    [pydantic.ValidationError], [PydanticUserError] the error pydantic raises
    when a class that is not fully defined is used; the others are the
    builtins of the same name. *)
Inductive exn :=
| PydanticValidationError
| PydanticUserError
| TypeError
| KeyError (key : string)
| NameError (name : string)
| AttributeError (name : string)
| ApiException (kind : ApiErrorKind).

Inductive result (A : Type) :=
| Ok (a : A)
| Raise (e : exn).
Arguments Ok {A} a.
Arguments Raise {A} e.

Definition bind {A B} (c : result A) (k : A -> result B) : result B :=
  match c with
  | Ok a => k a
  | Raise e => Raise e
  end.

Definition fmap {A B} (f : A -> B) (c : result A) : result B :=
  bind c (fun a => Ok (f a)).

(** What [json.loads] produces, and what the dictionaries handed to the
    transport hold. A float is carried by the exact decimal it denotes, as a
    count of hundredths; a [datetime.date] by its ISO text. *)
Inductive value :=
| VNone
| VBool (b : bool)
| VInt (n : Z)
| VFloat (hundredths : Z)
| VStr (s : string)
| VDate (iso : string)
| VList (items : list value)
| VDict (entries : list (string * value)).

Definition dict := list (string * value).

(** [d.get(k)]: the value stored under [k], if any. *)
Fixpoint dict_get {V} (k : string) (d : list (string * V)) : option V :=
  match d with
  | [] => None
  | (k', v) :: d' => if String.eqb k k' then Some v else dict_get k d'
  end.

(** [d[k] = v]: replaces the value in place, or appends a new entry. *)
Fixpoint dict_set {V} (k : string) (v : V) (d : list (string * V)) : list (string * V) :=
  match d with
  | [] => [(k, v)]
  | (k', v') :: d' =>
      if String.eqb k k' then (k', v) :: d' else (k', v') :: dict_set k v d'
  end.

(** [d.update(e)] *)
Definition dict_update {V} (d e : list (string * V)) : list (string * V) :=
  fold_left (fun acc kv => dict_set (fst kv) (snd kv) acc) e d.

Definition dict_keys {V} (d : list (string * V)) : list string := map fst d.

(** [k in d] *)
Definition dict_mem {V} (k : string) (d : list (string * V)) : bool :=
  match dict_get k d with Some _ => true | None => false end.

(** The one-character strings of a string, as iteration yields them. *)
Fixpoint chars (s : string) : list value :=
  match s with
  | EmptyString => []
  | String c s' => VStr (String c EmptyString) :: chars s'
  end.

(** [iter(v)], run to the end: a list yields its items, a string its
    characters, a dictionary its keys; other values are not iterable. *)
Definition iter (v : value) : result (list value) :=
  match v with
  | VList items => Ok items
  | VStr s => Ok (chars s)
  | VDict entries => Ok (map (fun kv => VStr (fst kv)) entries)
  | VNone | VBool _ | VInt _ | VFloat _ | VDate _ => Raise TypeError
  end.

(** [v[k]] for a string key [k]. *)
Definition getitem (v : value) (k : string) : result value :=
  match v with
  | VDict entries =>
      match dict_get k entries with
      | Some x => Ok x
      | None => Raise (KeyError k)
      end
  | _ => Raise TypeError
  end.

(** A list comprehension [[f(x) for x in xs]]: left to right, the first
    exception ends it. *)
Fixpoint comprehension {A B} (f : A -> result B) (xs : list A) : result (list B) :=
  match xs with
  | [] => Ok []
  | x :: xs' =>
      bind (f x) (fun y => bind (comprehension f xs') (fun ys => Ok (y :: ys)))
  end.

(** The items of a list of optional values, when none is [None]. *)
Fixpoint all_some {A} (xs : list (option A)) : option (list A) :=
  match xs with
  | [] => Some []
  | None :: _ => None
  | Some x :: xs' =>
      match all_some xs' with
      | Some ys => Some (x :: ys)
      | None => None
      end
  end.

(** An optional value as Python has it: [None] or the value itself. *)
Definition opt {A} (f : A -> value) (o : option A) : value :=
  match o with
  | Some a => f a
  | None => VNone
  end.

End Py.
Import Py.

Declare Scope py_scope.
Notation "x <- c ;; k" := (bind c (fun x => k))
  (at level 61, c at next level, right associativity) : py_scope.
Open Scope py_scope.

(** ** The generated model [CreateNewTransactions201Response] *)

(** The interface every generated model class exposes. [model_dump] is
    pydantic's own dump of the instance (by alias, [None] excluded),
    [to_dict] and [from_dict] are the class's generated methods. *)
Module Wire.
Class WireModel (T : Type) := {
  model_dump : T -> value;
  to_dict : T -> value;
  from_dict : value -> result (option T)
}.
End Wire.

Module Model.

(** A declared field of a pydantic model: the attribute name, the alias when
    the declaration gives one, and whether its annotation is [Optional]. *)
Record field_info := {
  attribute : string;
  alias : option string;
  optional : bool
}.

(** The name a field is dumped under with [by_alias=True]. *)
Definition wire_name (f : field_info) : string :=
  match alias f with
  | Some a => a
  | None => attribute f
  end.

(** Lines 31-32: [transactions: List[TransactionObject]] and
    [skipped_existing_external_ids: Optional[List[...]] = None]; neither
    declares an alias. *)
Definition f_transactions : field_info :=
  {| attribute := "transactions"; alias := None; optional := false |}.
Definition f_skipped : field_info :=
  {| attribute := "skipped_existing_external_ids"; alias := None; optional := true |}.
Definition model_fields : list field_info := [f_transactions; f_skipped].

(** Line 33, [__properties]. *)
Definition __properties : list string :=
  ["transactions"; "skipped_existing_external_ids"].

(** The names the module binds at top level: its imports (lines 17-25) and
    the class it defines. [SkippedExistingExternalIdObject] is not one of
    them: the annotation of line 32 is a string under
    [from __future__ import annotations], and nothing imports the class. *)
Definition module_globals : list string :=
  ["annotations"; "pprint"; "re"; "json"; "BaseModel"; "ConfigDict"; "Any";
   "ClassVar"; "Dict"; "List"; "Optional"; "TransactionObject"; "Set"; "Self";
   "CreateNewTransactions201Response"].

(** Evaluating a global name. *)
Definition lookup_global (name : string) : result unit :=
  if existsb (String.eqb name) module_globals then Ok tt else Raise (NameError name).

(** The state of the class, [cls.__pydantic_complete__]. The class the
    module defines is not fully defined: the annotation of line 32 names a
    class the module does not bind, so pydantic builds no validator for it
    when the module is imported. The class is completed only from outside,
    by a [model_rebuild] where [SkippedExistingExternalIdObject] can be
    resolved; nothing in the module does that. *)
Class ClassState := {
  __pydantic_complete__ : bool
}.

(** The class is fully defined. *)
Class Complete (class_state : ClassState) : Prop :=
  is_complete : @__pydantic_complete__ class_state = true.

Section Model.
Context {TransactionObject SkippedExistingExternalIdObject : Type}.
Context {TO : Wire.WireModel TransactionObject}.
Context {SK : Wire.WireModel SkippedExistingExternalIdObject}.
Context {class_state : ClassState}.

(** An instance holds its two fields. There are instances only of a class
    that is fully defined: building one, by the constructor or by
    [model_validate], raises [PydanticUserError] before. *)
Record CreateNewTransactions201Response := {
  transactions : list TransactionObject;
  skipped_existing_external_ids : option (list SkippedExistingExternalIdObject);
  complete : Complete class_state
}.

(** What [from_dict] may be handed: a value that [json.loads] produced, or,
    since the annotation of its parameter is not enforced, an instance of
    the class. *)
Inductive Obj :=
| Json (v : value)
| Instance (m : CreateNewTransactions201Response).

(** [self.model_dump(by_alias=True, exclude=set(), exclude_none=True)]:
    the fields in declaration order under their wire names, nested models
    dumped by pydantic, a field whose value is [None] left out. *)
Definition dump (self : CreateNewTransactions201Response) : dict :=
  (wire_name f_transactions, VList (map Wire.model_dump (transactions self)))
  :: match skipped_existing_external_ids self with
     | None => []
     | Some l => [(wire_name f_skipped, VList (map Wire.model_dump l))]
     end.

(** Lines 56-88. A model instance is always truthy (the classes define
    neither [__bool__] nor [__len__]), so the inner [if _item] keeps every
    item; the outer [if] skips an empty list and [None]. *)
Definition to_dict (self : CreateNewTransactions201Response) : dict :=
  let _dict := dump self in
  let _dict :=
    match transactions self with
    | [] => _dict
    | _ :: _ => dict_set "transactions" (VList (map Wire.to_dict (transactions self))) _dict
    end in
  match skipped_existing_external_ids self with
  | None | Some [] => _dict
  | Some ((_ :: _) as l) =>
      dict_set "skipped_existing_external_ids" (VList (map Wire.to_dict l)) _dict
  end.

(** [cls.model_validate] on the dictionary built at lines 99-102: each entry
    is [None] or a list whose items are instances or [None]. While the class
    is not fully defined the call raises [PydanticUserError], whatever it is
    given. Once it is, the required list may not be [None], and no list may
    hold [None]. *)
Definition model_validate
    (ts : option (list (option TransactionObject)))
    (ss : option (list (option SkippedExistingExternalIdObject)))
  : result CreateNewTransactions201Response :=
  match bool_dec __pydantic_complete__ true with
  | right _ => Raise PydanticUserError
  | left complete =>
      match ts with
      | None => Raise PydanticValidationError
      | Some ts =>
          match all_some ts, ss with
          | None, _ => Raise PydanticValidationError
          | Some ts', None =>
              Ok {| transactions := ts'; skipped_existing_external_ids := None;
                    complete := complete |}
          | Some ts', Some ss =>
              match all_some ss with
              | None => Raise PydanticValidationError
              | Some ss' =>
                  Ok {| transactions := ts'; skipped_existing_external_ids := Some ss';
                        complete := complete |}
              end
          end
      end
  end.

(** [cls.model_validate(obj)] at line 97, where [obj] is neither [None] nor
    a dictionary: an instance of the class is returned as it is (the class
    does not configure [revalidate_instances]); any other value is not a
    model, and the error is that of the state of the class. *)
Definition model_validate_object (obj : Obj) : result CreateNewTransactions201Response :=
  match obj with
  | Instance m => Ok m
  | Json _ =>
      if __pydantic_complete__ then Raise PydanticValidationError
      else Raise PydanticUserError
  end.

(** One entry of the dictionary literal of lines 99-102:
    [[C.from_dict(_item) for _item in obj[k]] if obj.get(k) is not None else None].
    The iterable is evaluated first; the name [C] is evaluated once per item. *)
Definition entry {T} `{Wire.WireModel T} (class_name : string) (obj : dict) (k : string)
  : result (option (list (option T))) :=
  match dict_get k obj with
  | None | Some VNone => Ok None
  | Some v =>
      items <- iter v ;;
      l <- comprehension
             (fun _item => _ <- lookup_global class_name ;; Wire.from_dict _item)
             items ;;
      Ok (Some l)
  end.

(** Lines 90-103. *)
Definition from_dict (obj : Obj) : result (option CreateNewTransactions201Response) :=
  match obj with
  | Json VNone => Ok None
  | Json (VDict obj) =>
      ts <- entry (T := TransactionObject) "TransactionObject" obj "transactions" ;;
      ss <- entry (T := SkippedExistingExternalIdObject)
              "SkippedExistingExternalIdObject" obj "skipped_existing_external_ids" ;;
      fmap Some (model_validate ts ss)
  | _ => fmap Some (model_validate_object obj)
  end.

(** Lines 46-54, over the [json] module of the standard library. *)
Section Json.
Variable json_dumps : value -> string.
Variable json_loads : string -> result value.

Definition to_json (self : CreateNewTransactions201Response) : string :=
  json_dumps (VDict (to_dict self)).

Definition from_json (json_str : string) : result (option CreateNewTransactions201Response) :=
  obj <- json_loads json_str ;;
  from_dict (Json obj).

End Json.
End Model.
Arguments CreateNewTransactions201Response
  TransactionObject SkippedExistingExternalIdObject {class_state}.
Arguments Obj TransactionObject SkippedExistingExternalIdObject {class_state}.

(** A decoded value where an [Obj] is expected is that value. *)
#[warning="-uniform-inheritance"] Coercion Json : value >-> Obj.
End Model.

(** ** The generated client [TransactionsGroupApi] *)

Module GroupApi.

(** The keyword arguments of [ApiClient.param_serialize], as the two
    [_serialize] methods pass them. *)
Record SerializeArgs (Body : Type) := {
  method : string;
  resource_path : string;
  path_params : list (string * Z);
  query_params : list (string * string);
  header_params : list (string * option string);
  body : option Body;
  post_params : list (string * string);
  files : list (string * string);
  auth_settings : list string;
  collection_formats : list (string * string);
  _host : option string;
  _request_auth : option dict
}.
Arguments method {Body} _.
Arguments resource_path {Body} _.
Arguments path_params {Body} _.
Arguments query_params {Body} _.
Arguments header_params {Body} _.
Arguments body {Body} _.
Arguments post_params {Body} _.
Arguments files {Body} _.
Arguments auth_settings {Body} _.
Arguments collection_formats {Body} _.
Arguments _host {Body} _.
Arguments _request_auth {Body} _.

(** [rest.RESTResponse] after [read()]. *)
Module REST.
Record RESTResponse (Bytes : Type) := {
  status : Z;
  headers : list (string * string);
  data : Bytes
}.
Arguments status {Bytes} _.
Arguments headers {Bytes} _.
Arguments data {Bytes} _.
End REST.

(** [api_response.ApiResponse]. *)
Module Api.
Record ApiResponse (Bytes Data : Type) := {
  status_code : Z;
  headers : list (string * string);
  data : option Data;
  raw_data : Bytes
}.
Arguments status_code {Bytes Data} _.
Arguments headers {Bytes Data} _.
Arguments data {Bytes Data} _.
Arguments raw_data {Bytes Data} _.
End Api.

(** [_request_timeout]: one number, or a (connection, read) pair. *)
Inductive timeout (StrictFloat : Type) :=
| Total (t : StrictFloat)
| ConnectRead (c r : StrictFloat).
Arguments Total {StrictFloat} t.
Arguments ConnectRead {StrictFloat} c r.

(** What the class takes from the rest of the generated package, none of it
    in the sources at hand: pydantic's strict floats with the [gt=0] test,
    the request model, the [ApiClient] helpers that choose headers, build the
    request and decode a body into a named type, and [ApiClient.call_api],
    which runs the request against the world [World] (the connection and the
    remote service behind it). [other_status] is what [response_deserialize]
    does with a status the specification does not list. *)
Class ApiClient := {
  StrictFloat : Type;
  gt0 : StrictFloat -> bool;
  GroupTransactionsRequest : Type;
  select_header_accept : list string -> option string;
  select_header_content_type : list string -> option string;
  RequestSerialized : Type;
  param_serialize : SerializeArgs GroupTransactionsRequest -> RequestSerialized;
  World : Type;
  Bytes : Type;
  call_api :
    RequestSerialized -> option (timeout StrictFloat) -> World ->
    result (REST.RESTResponse Bytes) * World;
  Data : Type;
  deserialize : string -> Bytes -> result Data;
  other_status :
    REST.RESTResponse Bytes -> list (string * option string) ->
    result (Api.ApiResponse Bytes Data)
}.

(** HTTP status codes as the keys of a [_response_types_map]. *)
Definition str (n : Z) : string := NilZero.string_of_int (Z.to_int n).

(** Modelled from the spec: the error category of a status. [ApiClient]
    (lunchable/api_client.py) and its exceptions are missing; section 7 of
    the specification reads 400 as a validation error, 401 as an
    authentication error, 404 as not found, 429 as a rate limit and 500 as a
    server error, each surfaced to the caller as a typed error. *)
Definition error_category (st : Z) : option ApiErrorKind :=
  if (st =? 400)%Z then Some ValidationError
  else if (st =? 401)%Z then Some AuthError
  else if (st =? 404)%Z then Some NotFoundError
  else if (st =? 429)%Z then Some RateLimitError
  else if (st =? 500)%Z then Some ServerError
  else None.

(** Modelled from the spec: the success statuses of section 6. *)
Definition is_success (st : Z) : bool :=
  ((st =? 200) || (st =? 201) || (st =? 204))%Z.

Section Client.
Context {client : ApiClient}.

(** Modelled from the spec: [ApiClient.response_deserialize] is missing.
    An error status raises the typed error of its category and is never
    retried; a success status yields the body decoded as the type the map
    names for it, or no data when the map names none. *)
Definition response_deserialize
    (response_data : REST.RESTResponse Bytes)
    (response_types_map : list (string * option string))
  : result (Api.ApiResponse Bytes Data) :=
  let st := REST.status response_data in
  match error_category st with
  | Some kind => Raise (ApiException kind)
  | None =>
      if is_success st then
        match dict_get (str st) response_types_map with
        | Some (Some response_type) =>
            d <- deserialize response_type (REST.data response_data) ;;
            Ok {| Api.status_code := st;
                  Api.headers := REST.headers response_data;
                  Api.data := Some d;
                  Api.raw_data := REST.data response_data |}
        | Some None | None =>
            Ok {| Api.status_code := st;
                  Api.headers := REST.headers response_data;
                  Api.data := None;
                  Api.raw_data := REST.data response_data |}
        end
      else other_status response_data response_types_map
  end.

(** The keyword arguments every public method takes besides its own. *)
Record options := {
  _request_timeout : option (timeout StrictFloat);
  request_auth : option dict;
  _content_type : option string;
  _headers : option (list (string * option string));
  _host_index : Z
}.

(** [@validate_call] on those arguments: each timeout is [gt=0], and
    [_host_index] is [ge=0, le=0]. The other annotations hold by typing. *)
Definition validate_call (o : options) : result unit :=
  let timeout_ok :=
    match _request_timeout o with
    | None => true
    | Some (Total t) => gt0 t
    | Some (ConnectRead c r) => gt0 c && gt0 r
    end in
  if timeout_ok && (0 <=? _host_index o)%Z && (_host_index o <=? 0)%Z
  then Ok tt else Raise PydanticValidationError.

(** [_headers or {}], then the [Accept] header when the caller set none. *)
Definition accept_headers (o : options) : list (string * option string) :=
  let _header_params := match _headers o with Some h => h | None => [] end in
  if dict_mem "Accept" _header_params then _header_params
  else dict_set "Accept" (select_header_accept ["application/json"]) _header_params.

(** Lines 239-300. *)
Definition _group_transactions_serialize
    (group_transactions_request : GroupTransactionsRequest) (o : options)
  : RequestSerialized :=
  let _body_params := Some group_transactions_request in
  let _header_params := accept_headers o in
  let _header_params :=
    match _content_type o with
    | Some ((String _ _) as ct) => dict_set "Content-Type" (Some ct) _header_params
    | Some EmptyString | None =>
        match select_header_content_type ["application/json"] with
        | Some _default_content_type =>
            dict_set "Content-Type" (Some _default_content_type) _header_params
        | None => _header_params
        end
    end in
  param_serialize
    {| method := "POST";
       resource_path := "/transactions/group";
       path_params := [];
       query_params := [];
       header_params := _header_params;
       body := _body_params;
       post_params := [];
       files := [];
       auth_settings := ["cookieAuth"; "bearerSecurity"];
       collection_formats := [];
       _host := None;
       _request_auth := request_auth o |}.

(** Lines 508-559. *)
Definition _ungroup_transactions_serialize (id : Z) (o : options) : RequestSerialized :=
  let _path_params := [("id", id)] in
  let _header_params := accept_headers o in
  param_serialize
    {| method := "DELETE";
       resource_path := "/transactions/group/{id}";
       path_params := _path_params;
       query_params := [];
       header_params := _header_params;
       body := None;
       post_params := [];
       files := [];
       auth_settings := ["cookieAuth"; "bearerSecurity"];
       collection_formats := [];
       _host := None;
       _request_auth := request_auth o |}.

(** A call that may raise and that may change the world. *)
Definition call (A : Type) := World -> result A * World.

(** The [_response_types_map] each of the three group methods builds (lines
    91-97, 159-165, 227-233). *)
Definition group_response_types_map : list (string * option string) :=
  [("201", Some "GroupTransactions201Response");
   ("400", Some "ErrorResponseObject");
   ("401", Some "ErrorResponseObject");
   ("429", Some "ErrorResponseObject");
   ("500", Some "ErrorResponseObject")].

(** Lines 39-105. *)
Definition group_transactions
    (group_transactions_request : GroupTransactionsRequest) (o : options)
  : call (option Data) :=
  fun w =>
    match validate_call o with
    | Raise e => (Raise e, w)
    | Ok _ =>
        let _param := _group_transactions_serialize group_transactions_request o in
        let _response_types_map :=
          [("201", Some "GroupTransactions201Response");
           ("400", Some "ErrorResponseObject");
           ("401", Some "ErrorResponseObject");
           ("429", Some "ErrorResponseObject");
           ("500", Some "ErrorResponseObject")] in
        match call_api _param (_request_timeout o) w with
        | (Raise e, w') => (Raise e, w')
        | (Ok response_data, w') =>
            (fmap Api.data (response_deserialize response_data _response_types_map), w')
        end
    end.

(** Lines 107-173. *)
Definition group_transactions_with_http_info
    (group_transactions_request : GroupTransactionsRequest) (o : options)
  : call (Api.ApiResponse Bytes Data) :=
  fun w =>
    match validate_call o with
    | Raise e => (Raise e, w)
    | Ok _ =>
        let _param := _group_transactions_serialize group_transactions_request o in
        let _response_types_map :=
          [("201", Some "GroupTransactions201Response");
           ("400", Some "ErrorResponseObject");
           ("401", Some "ErrorResponseObject");
           ("429", Some "ErrorResponseObject");
           ("500", Some "ErrorResponseObject")] in
        match call_api _param (_request_timeout o) w with
        | (Raise e, w') => (Raise e, w')
        | (Ok response_data, w') =>
            (response_deserialize response_data _response_types_map, w')
        end
    end.

(** Lines 302-370. *)
Definition ungroup_transactions (id : Z) (o : options) : call (option Data) :=
  fun w =>
    match validate_call o with
    | Raise e => (Raise e, w)
    | Ok _ =>
        let _param := _ungroup_transactions_serialize id o in
        let _response_types_map :=
          [("204", None);
           ("401", Some "ErrorResponseObject");
           ("404", Some "ErrorResponseObject");
           ("429", Some "ErrorResponseObject");
           ("500", Some "ErrorResponseObject")] in
        match call_api _param (_request_timeout o) w with
        | (Raise e, w') => (Raise e, w')
        | (Ok response_data, w') =>
            (fmap Api.data (response_deserialize response_data _response_types_map), w')
        end
    end.

(** Lines 372-440. *)
Definition ungroup_transactions_with_http_info (id : Z) (o : options)
  : call (Api.ApiResponse Bytes Data) :=
  fun w =>
    match validate_call o with
    | Raise e => (Raise e, w)
    | Ok _ =>
        let _param := _ungroup_transactions_serialize id o in
        let _response_types_map :=
          [("204", None);
           ("401", Some "ErrorResponseObject");
           ("404", Some "ErrorResponseObject");
           ("429", Some "ErrorResponseObject");
           ("500", Some "ErrorResponseObject")] in
        match call_api _param (_request_timeout o) w with
        | (Raise e, w') => (Raise e, w')
        | (Ok response_data, w') =>
            (response_deserialize response_data _response_types_map, w')
        end
    end.

(** [_headers or {}] (lines 253 and 522): the headers the caller passed. *)
Definition caller_headers (o : options) : list (string * option string) :=
  match _headers o with
  | Some h => h
  | None => []
  end.

End Client.

(** *** The methods that do not read the response *)

(** [call_api] above is the call together with the [response_data.read()]
    that follows it in the plain and the [with_http_info] methods. The
    [without_preload_content] methods make the call alone, and this class
    takes it apart: [call_api_unread] is [ApiClient.call_api] itself, whose
    [rest.RESTResponse] has not been read, [response] is the attribute of
    that name, the response of the HTTP library, and [read] is the method
    that fetches the body; [call_api_is_read] says that the two make up the
    call above. None of it is in the sources at hand. *)
Class RawApiClient (client : ApiClient) := {
  Unread : Type;
  HTTPResponse : Type;
  call_api_unread :
    RequestSerialized -> option (timeout StrictFloat) -> World ->
    result Unread * World;
  response : Unread -> HTTPResponse;
  read : Unread -> World -> result (REST.RESTResponse Bytes) * World;
  call_api_is_read :
    forall _param _request_timeout w,
      call_api _param _request_timeout w
      = match call_api_unread _param _request_timeout w with
        | (Ok response_data, w') => read response_data w'
        | (Raise e, w') => (Raise e, w')
        end
}.

Section Raw.
Context {client : ApiClient} {raw : RawApiClient client}.

(** Lines 175-237: [response_data.response], which is not read. *)
Definition group_transactions_without_preload_content
    (group_transactions_request : GroupTransactionsRequest) (o : options)
  : call HTTPResponse :=
  fun w =>
    match validate_call o with
    | Raise e => (Raise e, w)
    | Ok _ =>
        let _param := _group_transactions_serialize group_transactions_request o in
        match call_api_unread _param (_request_timeout o) w with
        | (Raise e, w') => (Raise e, w')
        | (Ok response_data, w') => (Ok (response response_data), w')
        end
    end.

(** Lines 442-506: likewise. *)
Definition ungroup_transactions_without_preload_content (id : Z) (o : options)
  : call HTTPResponse :=
  fun w =>
    match validate_call o with
    | Raise e => (Raise e, w)
    | Ok _ =>
        let _param := _ungroup_transactions_serialize id o in
        match call_api_unread _param (_request_timeout o) w with
        | (Raise e, w') => (Raise e, w')
        | (Ok response_data, w') => (Ok (response response_data), w')
        end
    end.

End Raw.
End GroupApi.

(** ** The hand-written SDK: budgets and transactions *)

Module Sdk.

(** The keyword arguments [_make_request] is called with besides the method
    and the path. *)
Record request_kwargs := {
  params : option dict;
  payload : option dict;
  json : option dict
}.

Definition no_kwargs : request_kwargs :=
  {| params := None; payload := None; json := None |}.

(** What the SDK classes inherit or import, none of it in the sources at
    hand: [_make_request] of the core client, which runs one request against
    the world and returns the decoded response, and the two path constants of
    [APIConfig]. *)
Class Core := {
  World : Type;
  _make_request : string -> value -> request_kwargs -> World -> result value * World;
  LUNCHMONEY_TRANSACTIONS : string;
  LUNCHMONEY_BUDGET : string
}.

(** What a date argument may be (lines 112-113): a date, a datetime, which
    is reduced to its date, or a text. *)
Inductive date_like :=
| ADate (iso : string)
| ADatetime (iso : string) (time : string)
| AText (s : string).

(** pydantic's field validators, as far as the SDK's models use them: each
    accepts at least the values of its own type and returns them unchanged;
    what else it accepts is pydantic's business. [parse_date] reads a date
    from a text, a float is carried as its count of hundredths. *)
Class Validators := {
  validate_int : value -> option Z;
  validate_float : value -> option Z;
  validate_str : value -> option string;
  validate_bool : value -> option bool;
  parse_date : string -> option string;
  validate_int_int : forall n, validate_int (VInt n) = Some n;
  validate_float_float : forall h, validate_float (VFloat h) = Some h;
  validate_str_str : forall s, validate_str (VStr s) = Some s;
  validate_bool_bool : forall b, validate_bool (VBool b) = Some b
}.

Definition validate_date `{Validators} (d : date_like) : option string :=
  match d with
  | ADate iso => Some iso
  | ADatetime iso _ => Some iso
  | AText s => parse_date s
  end.

Section Sdk.
Context {core : Core} {validators : Validators}.

Definition call (A : Type) := World -> result A * World.

(** *** lunchmoney/models/budgets.py *)

(** [BudgetParamsPut(...).dict(exclude_none=True)], lines 70-78 and 153-154. *)
Definition BudgetParamsPut_dict
    (start_date : string) (category_id : Z) (amount : Z) (currency : option string)
  : dict :=
  ([("start_date", VDate start_date); ("category_id", VInt category_id);
    ("amount", VFloat amount)]
   ++ match currency with
      | Some c => [("currency", VStr c)]
      | None => []
      end)%list.

(** Lines 115-159. *)
Definition upsert_budget
    (start_date : string) (category_id : Z) (amount : Z) (currency : option string)
  : call value :=
  fun w =>
    let body := BudgetParamsPut_dict start_date category_id amount currency in
    match _make_request "PUT" (VList [VStr LUNCHMONEY_BUDGET])
            {| params := None; payload := Some body; json := None |} w with
    | (Raise e, w') => (Raise e, w')
    | (Ok response_data, w') => (getitem response_data "category_group", w')
    end.

(** *** lunchmoney/sdk/transactions.py *)

(** Lines 21-39. *)
Record TransactionsObject := {
  id : option Z;
  date : string;
  amount : Z;
  payee : option string;
  currency : option string;
  status : option string;
  category_id : option Z;
  asset_id : option Z;
  parent_id : option Z;
  plaid_account_id : option Z;
  is_group : option bool;
  group_id : option Z;
  external_id : option string;
  tags : option (list string);
  notes : option string
}.

(** The declared fields: the only attributes an instance has. *)
Definition TransactionsObject_fields : list string :=
  ["id"; "date"; "amount"; "payee"; "currency"; "status"; "category_id";
   "asset_id"; "parent_id"; "plaid_account_id"; "is_group"; "group_id";
   "external_id"; "tags"; "notes"].

(** A required field: the key must be there and pass the validator. *)
Definition required {A} (validate : value -> option A) (k : string) (item : dict)
  : option A :=
  match dict_get k item with
  | Some v => validate v
  | None => None
  end.

(** An [Optional] field: a missing key and [None] both give [None] (the
    module is written against pydantic 1, where [Optional] implies the
    default [None]). *)
Definition optional {A} (validate : value -> option A) (k : string) (item : dict)
  : option (option A) :=
  match dict_get k item with
  | None | Some VNone => Some None
  | Some v =>
      match validate v with
      | Some a => Some (Some a)
      | None => None
      end
  end.

(** [List[str]]: a list each item of which passes the [str] validator. *)
Definition validate_str_list (v : value) : option (list string) :=
  match v with
  | VList items => all_some (map validate_str items)
  | _ => None
  end.

(** A [TransactionsObject] built from an unpacked item (lines 144 and 163):
    unpacking needs a dictionary; the declared
    fields are validated, every other key is ignored (pydantic's default for
    a model without a [Config]). Any failure is one [ValidationError]. *)
Definition TransactionsObject_of (item : value) : result TransactionsObject :=
  match item with
  | VDict item =>
      match optional validate_int "id" item, required validate_str "date" item,
            required validate_float "amount" item, optional validate_str "payee" item,
            optional validate_str "currency" item, optional validate_str "status" item,
            optional validate_int "category_id" item, optional validate_int "asset_id" item,
            optional validate_int "parent_id" item,
            optional validate_int "plaid_account_id" item,
            optional validate_bool "is_group" item, optional validate_int "group_id" item,
            optional validate_str "external_id" item,
            optional validate_str_list "tags" item, optional validate_str "notes" item
      with
      | Some id, Some date, Some amount, Some payee, Some currency, Some status,
        Some category_id, Some asset_id, Some parent_id, Some plaid_account_id,
        Some is_group, Some group_id, Some external_id, Some tags, Some notes =>
          Ok {| id := id; date := date; amount := amount; payee := payee;
                currency := currency; status := status; category_id := category_id;
                asset_id := asset_id; parent_id := parent_id;
                plaid_account_id := plaid_account_id; is_group := is_group;
                group_id := group_id; external_id := external_id; tags := tags;
                notes := notes |}
      | _, _, _, _, _, _, _, _, _, _, _, _, _, _, _ => Raise PydanticValidationError
      end
  | _ => Raise TypeError
  end.

(** [getattr(t, name)]: a declared field gives its value, any other name
    raises [AttributeError]. *)
Definition getattr (t : TransactionsObject) (name : string) : result value :=
  if name =? "id" then Ok (opt VInt (id t))
  else if name =? "date" then Ok (VStr (date t))
  else if name =? "amount" then Ok (VFloat (amount t))
  else if name =? "payee" then Ok (opt VStr (payee t))
  else if name =? "currency" then Ok (opt VStr (currency t))
  else if name =? "status" then Ok (opt VStr (status t))
  else if name =? "category_id" then Ok (opt VInt (category_id t))
  else if name =? "asset_id" then Ok (opt VInt (asset_id t))
  else if name =? "parent_id" then Ok (opt VInt (parent_id t))
  else if name =? "plaid_account_id" then Ok (opt VInt (plaid_account_id t))
  else if name =? "is_group" then Ok (opt VBool (is_group t))
  else if name =? "group_id" then Ok (opt VInt (group_id t))
  else if name =? "external_id" then Ok (opt VStr (external_id t))
  else if name =? "tags" then Ok (opt (fun l => VList (map VStr l)) (tags t))
  else if name =? "notes" then Ok (opt VStr (notes t))
  else Raise (AttributeError name).

(** [TransactionParamsGet(start_date=..., end_date=...).dict(exclude_none=True)],
    lines 76-81 and 136-137. *)
Definition TransactionParamsGet_dict (start_date end_date : option date_like)
  : result dict :=
  let field (k : string) (d : option date_like) : option dict :=
    match d with
    | None => Some []
    | Some d =>
        match validate_date d with
        | Some iso => Some [(k, VDate iso)]
        | None => None
        end
    end in
  match field "start_date" start_date, field "end_date" end_date with
  | Some s, Some e => Ok (s ++ e)%list
  | _, _ => Raise PydanticValidationError
  end.

(** Lines 136-139: the query of a listing. *)
Definition search_params_of
    (start_date end_date : option date_like) (params : option dict) : result dict :=
  search_params <- TransactionParamsGet_dict start_date end_date ;;
  match params with
  | Some params => Ok (dict_update search_params params)
  | None => Ok search_params
  end.

(** Lines 111-145. *)
Definition get_transactions
    (start_date end_date : option date_like) (params : option dict)
  : call (list TransactionsObject) :=
  fun w =>
    match search_params_of start_date end_date params with
    | Raise e => (Raise e, w)
    | Ok search_params =>
        match _make_request "GET" (VStr LUNCHMONEY_TRANSACTIONS)
                {| params := Some search_params; payload := None; json := None |} w with
        | (Raise e, w') => (Raise e, w')
        | (Ok response_data, w') =>
            (transactions <- getitem response_data LUNCHMONEY_TRANSACTIONS ;;
             items <- iter transactions ;;
             comprehension TransactionsObject_of items, w')
        end
    end.

(** Lines 147-163. A response that is not a dictionary cannot be unpacked. *)
Definition get_transaction (transaction_id : Z) : call TransactionsObject :=
  fun w =>
    match _make_request "GET" (VList [VStr LUNCHMONEY_TRANSACTIONS; VInt transaction_id])
            no_kwargs w with
    | (Raise e, w') => (Raise e, w')
    | (Ok response_data, w') => (TransactionsObject_of response_data, w')
    end.

End Sdk.
End Sdk.

(** ** The SDK, continued: the budget summary *)

Module Budgets.
Import Sdk.

(** pydantic's reading of a value as a mapping, which a [Dict] field and a
    field that holds a model both start with: a dictionary is taken as it
    is; what else is accepted is pydantic's business. *)
Class Mappings := {
  validate_dict : value -> option dict;
  validate_dict_dict : forall d, validate_dict (VDict d) = Some d
}.

(** lunchmoney/models/budgets.py, lines 19-28. *)
Record BudgetDataObject := {
  budget_amount : option Z;
  budget_currency : option string;
  budget_to_base : option Z;
  spending_to_base : Z;
  num_transactions : Z
}.

(** Lines 31-41. *)
Record BudgetConfigObject := {
  config_id : Z;
  cadence : string;
  amount : option Z;
  currency : option string;
  to_base : option Z;
  auto_suggest : string
}.

(** Lines 44-58. The dictionary [data] is keyed by dates, carried by their
    ISO text. *)
Record BudgetObject := {
  category_name : string;
  category_id : option Z;
  category_group_name : option string;
  group_id : option Z;
  is_group : option bool;
  is_income : bool;
  exclude_from_budget : bool;
  exclude_from_totals : bool;
  data : list (string * BudgetDataObject);
  config : option BudgetConfigObject
}.

(** A field whose annotation is not [Optional] rejects [None] before its
    validator runs. *)
Definition not_none {A} (validate : value -> option A) (v : value) : option A :=
  match v with
  | VNone => None
  | _ => validate v
  end.

(** A field without a default whose annotation is not [Optional]: the key
    must be there, with a value that is not [None] and passes the validator. *)
Definition field {A} (validate : value -> option A) (k : string) (item : dict)
  : option A :=
  match dict_get k item with
  | Some v => not_none validate v
  | None => None
  end.

(** A field with a default: a missing key gives the default, a value that is
    there is validated as for [field]. *)
Definition defaulted {A} (validate : value -> option A) (default : A)
    (k : string) (item : dict) : option A :=
  match dict_get k item with
  | Some v => not_none validate v
  | None => Some default
  end.

Section Budgets.
Context {core : Core} {validators : Validators} {mappings : Mappings}.

(** A value validated as a model: read as a mapping, then field by field. *)
Definition model {A} (of_dict : dict -> option A) (v : value) : option A :=
  match validate_dict v with
  | Some d => of_dict d
  | None => None
  end.

Definition BudgetDataObject_of (d : dict) : option BudgetDataObject :=
  match optional validate_float "budget_amount" d,
        optional validate_str "budget_currency" d,
        optional validate_float "budget_to_base" d,
        defaulted validate_float 0%Z "spending_to_base" d,
        defaulted validate_int 0%Z "num_transactions" d
  with
  | Some budget_amount, Some budget_currency, Some budget_to_base,
    Some spending_to_base, Some num_transactions =>
      Some {| budget_amount := budget_amount; budget_currency := budget_currency;
              budget_to_base := budget_to_base; spending_to_base := spending_to_base;
              num_transactions := num_transactions |}
  | _, _, _, _, _ => None
  end.

Definition BudgetConfigObject_of (d : dict) : option BudgetConfigObject :=
  match field validate_int "config_id" d, field validate_str "cadence" d,
        optional validate_float "amount" d, optional validate_str "currency" d,
        optional validate_float "to_base" d, field validate_str "auto_suggest" d
  with
  | Some config_id, Some cadence, Some amount, Some currency, Some to_base,
    Some auto_suggest =>
      Some {| config_id := config_id; cadence := cadence; amount := amount;
              currency := currency; to_base := to_base; auto_suggest := auto_suggest |}
  | _, _, _, _, _, _ => None
  end.

(** [Dict[datetime.date, BudgetDataObject]], entry by entry: the key is read
    as a date, the value as a model, and the pair is stored under the date,
    so that a date met twice keeps its last value. *)
Fixpoint validate_data_entries
    (entries : dict) (acc : list (string * BudgetDataObject))
  : option (list (string * BudgetDataObject)) :=
  match entries with
  | [] => Some acc
  | (k, v) :: entries' =>
      match parse_date k, not_none (model BudgetDataObject_of) v with
      | Some day, Some o => validate_data_entries entries' (dict_set day o acc)
      | _, _ => None
      end
  end.

Definition validate_data (v : value) : option (list (string * BudgetDataObject)) :=
  match validate_dict v with
  | Some entries => validate_data_entries entries []
  | None => None
  end.

(** A [BudgetObject] built from an unpacked item (line 112): unpacking needs
    a dictionary; the declared fields are validated, every other key is
    ignored. Any failure is one [ValidationError]. *)
Definition BudgetObject_of (item : value) : result BudgetObject :=
  match item with
  | VDict item =>
      match field validate_str "category_name" item,
            optional validate_int "category_id" item,
            optional validate_str "category_group_name" item,
            optional validate_int "group_id" item,
            optional validate_bool "is_group" item,
            field validate_bool "is_income" item,
            field validate_bool "exclude_from_budget" item,
            field validate_bool "exclude_from_totals" item,
            field validate_data "data" item,
            optional (model BudgetConfigObject_of) "config" item
      with
      | Some category_name, Some category_id, Some category_group_name,
        Some group_id, Some is_group, Some is_income, Some exclude_from_budget,
        Some exclude_from_totals, Some data, Some config =>
          Ok {| category_name := category_name; category_id := category_id;
                category_group_name := category_group_name; group_id := group_id;
                is_group := is_group; is_income := is_income;
                exclude_from_budget := exclude_from_budget;
                exclude_from_totals := exclude_from_totals;
                data := data; config := config |}
      | _, _, _, _, _, _, _, _, _, _ => Raise PydanticValidationError
      end
  | _ => Raise TypeError
  end.

(** [BudgetParamsGet(...).dict()], lines 61-67 and 108: both dates are
    [datetime.date] values already. *)
Definition BudgetParamsGet_dict (start_date end_date : string) : dict :=
  [("start_date", VDate start_date); ("end_date", VDate end_date)].

(** Lines 95-113. The response is iterated whatever it is: a list yields its
    items, a dictionary its keys. *)
Definition get_budgets (start_date end_date : string) : call (list BudgetObject) :=
  fun w =>
    let params := BudgetParamsGet_dict start_date end_date in
    match _make_request "GET" (VList [VStr LUNCHMONEY_BUDGET])
            {| params := Some params; payload := None; json := None |} w with
    | (Raise e, w') => (Raise e, w')
    | (Ok response_data, w') =>
        (items <- iter response_data ;;
         comprehension BudgetObject_of items, w')
    end.

End Budgets.
End Budgets.

(** ** The SDK, continued: updating a transaction *)

Module Update.
Import Sdk.

(** lunchmoney/sdk/transactions.py, lines 59-73. Every field is [Optional];
    [__fields_set__] holds the names the instance was built with, which
    [dict(exclude_unset=True)] keeps. *)
Record TransactionUpdateObject := {
  date : option string;
  amount : option Z;
  category_id : option Z;
  payee : option string;
  currency : option string;
  asset_id : option Z;
  recurring_id : option Z;
  notes : option string;
  status : option string;
  external_id : option string;
  tags : option (list value);
  __fields_set__ : list string
}.

(** [transaction.dict(exclude_unset=True)]: the fields that were set, in
    declaration order. *)
Definition TransactionUpdateObject_dict (t : TransactionUpdateObject) : dict :=
  filter (fun kv => existsb (String.eqb (fst kv)) (__fields_set__ t))
    [("date", opt VDate (date t)); ("amount", opt VFloat (amount t));
     ("category_id", opt VInt (category_id t)); ("payee", opt VStr (payee t));
     ("currency", opt VStr (currency t)); ("asset_id", opt VInt (asset_id t));
     ("recurring_id", opt VInt (recurring_id t)); ("notes", opt VStr (notes t));
     ("status", opt VStr (status t)); ("external_id", opt VStr (external_id t));
     ("tags", opt VList (tags t))].

Section Update.
Context {core : Core} {validators : Validators}.

(** [TransactionUpdateParamsPut(...).dict(exclude_unset=True)], lines 96-103
    and 193-197. The four fields are all passed, so all four are set and
    dumped; [split], whatever object the caller gives, is validated as an
    optional boolean; the other three hold by their types. *)
Definition TransactionUpdateParamsPut_dict
    (transaction : TransactionUpdateObject) (split : value)
    (debit_as_negative skip_balance_update : bool) : result dict :=
  let validated :=
    match split with
    | VNone => Some None
    | _ => option_map Some (validate_bool split)
    end in
  match validated with
  | Some split =>
      Ok [("split", opt VBool split);
          ("transaction", VDict (TransactionUpdateObject_dict transaction));
          ("debit_as_negative", VBool debit_as_negative);
          ("skip_balance_update", VBool skip_balance_update)]
  | None => Raise PydanticValidationError
  end.

(** Lines 165-202. *)
Definition update_transaction
    (transaction_id : Z) (transaction : TransactionUpdateObject) (split : value)
    (debit_as_negative skip_balance_update : bool) : call value :=
  fun w =>
    match TransactionUpdateParamsPut_dict transaction split debit_as_negative
            skip_balance_update with
    | Raise e => (Raise e, w)
    | Ok response_data =>
        _make_request "PUT" (VList [VStr LUNCHMONEY_TRANSACTIONS; VInt transaction_id])
          {| params := None; payload := None; json := Some response_data |} w
    end.

End Update.
End Update.

(** ** The remote service *)

Module Service.

(** Modelled from the spec: the service behind the transport is not part of
    the repository. Section 3 of the specification gives its data model: a
    transaction has an integer id, an amount, a currency, a date, a payee, a
    status, an optional parent reference and a group flag, and a group lists
    its children. Amounts are exact decimals, counted in hundredths. *)
Record Transaction := {
  id : Z;
  amount : Z;
  currency : string;
  date : string;
  payee : string;
  status : string;
  parent_id : option Z;
  is_group : bool;
  children : list Z
}.

(** Modelled from the spec: the state of the service is the transactions it
    holds, the next id it will assign, and the user's default currency. *)
Record State := {
  store : list Transaction;
  next_id : Z;
  default_currency : string
}.

(** Modelled from the spec: what the specification leaves to the service.
    [convert from to a] is the amount [a] of currency [from] in currency [to]
    (section 9: the conversion rule is server-determined), [describe] gives
    the date, payee and status of a new group, and [in_range] is the date
    range a listing query selects. *)
Class Policy := {
  convert : string -> string -> Z -> Z;
  describe : list Transaction -> string * string * string;
  in_range : dict -> Transaction -> bool
}.

(** Modelled from the spec: the request model of the group call,
    [GroupTransactionsRequest] (lunchable/models/group_transactions_request.py),
    is missing; the specification's group call takes the transaction ids. *)
Record GroupTransactionsRequest := {
  ids : list Z
}.

(** Modelled from the spec: what a response of the service carries: nothing
    (204), an error message, one transaction or a list of transactions. *)
Inductive payload :=
| Nothing
| Failure (message : string)
| One (t : Transaction)
| Many (l : list Transaction).

(** Modelled from the spec: the helpers of the service model: membership of
    an id, the parent reference of a transaction, lookup by id in the store,
    and the sum of a list of amounts. *)
Definition mem (i : Z) (l : list Z) : bool := existsb (Z.eqb i) l.

Definition has_parent (g : Z) (t : Transaction) : bool :=
  match parent_id t with
  | Some p => (p =? g)%Z
  | None => false
  end.

Definition parentless (t : Transaction) : bool :=
  match parent_id t with
  | Some _ => false
  | None => true
  end.

Definition lookup (i : Z) (s : State) : option Transaction :=
  find (fun t => (id t =? i)%Z) (store s).

Definition set_parent (p : option Z) (t : Transaction) : Transaction :=
  {| id := id t; amount := amount t; currency := currency t; date := date t;
     payee := payee t; status := status t; parent_id := p;
     is_group := is_group t; children := children t |}.

Definition sum (l : list Z) : Z := fold_right Z.add 0%Z l.

(** Modelled from the spec: an id below the next id that no stored
    transaction has: the id of a deleted group. *)
Definition gone (g : Z) (s : State) : Prop :=
  (g < next_id s)%Z /\ lookup g s = None.

(** The object the SDK builds from the wire form of a transaction: the
    declared fields the wire form has, and nothing of its [children]. *)
Definition object_of (t : Transaction) : Sdk.TransactionsObject :=
  {| Sdk.id := Some (id t);
     Sdk.date := date t;
     Sdk.amount := amount t;
     Sdk.payee := Some (payee t);
     Sdk.currency := Some (currency t);
     Sdk.status := Some (status t);
     Sdk.category_id := None;
     Sdk.asset_id := None;
     Sdk.parent_id := parent_id t;
     Sdk.plaid_account_id := None;
     Sdk.is_group := Some (is_group t);
     Sdk.group_id := parent_id t;
     Sdk.external_id := None;
     Sdk.tags := None;
     Sdk.notes := None |}.

Section Service.
Context {policy : Policy}.

(** Modelled from the spec: an id can be grouped when it references an
    existing, ungrouped transaction that is not itself a group (sections 2
    and 4.1). *)
Definition groupable (s : State) (i : Z) : bool :=
  match lookup i s with
  | Some t => negb (is_group t) && parentless t
  | None => false
  end.

Definition uniform (c : string) (kids : list Transaction) : bool :=
  forallb (fun t => currency t =? c) kids.

(** Modelled from the spec: the currency and amount of a group (section 3):
    the sum of the children's amounts, converted to the user's default
    currency when the children have mixed currencies. *)
Definition total (s : State) (kids : list Transaction) : string * Z :=
  match kids with
  | [] => (default_currency s, 0%Z)
  | k :: _ =>
      if uniform (currency k) kids then (currency k, sum (map amount kids))
      else (default_currency s,
            sum (map (fun t => convert (currency t) (default_currency s) (amount t)) kids))
  end.

(** Modelled from the spec: a group request is invalid when it names fewer
    than two ids or an id that cannot be grouped (section 4.1). *)
Definition rejected (s : State) (ids : list Z) : bool :=
  (List.length ids <? 2)%nat || negb (forallb (groupable s) ids).

(** The transactions a set of ids names. *)
Definition named (ids : list Z) (l : list Transaction) : list Transaction :=
  filter (fun t => mem (id t) ids) l.

(** Modelled from the spec: the group created for a set of ids: the service
    assigns it the next id, and its amount and currency are [total] of the
    children (section 3). *)
Definition new_group (s : State) (ids : list Z) : Transaction :=
  let kids := named ids (store s) in
  let '(d, p, st) := describe kids in
  {| id := next_id s; amount := snd (total s kids); currency := fst (total s kids);
     date := d; payee := p; status := st; parent_id := None;
     is_group := true; children := ids |}.

(** Modelled from the spec: grouping marks each child with the group's id
    (section 3). *)
Definition attach (g : Z) (ids : list Z) (t : Transaction) : Transaction :=
  if mem (id t) ids then set_parent (Some g) t else t.

Definition grouped (s : State) (ids : list Z) : State :=
  {| store := (map (attach (next_id s) ids) (store s) ++ [new_group s ids])%list;
     next_id := (next_id s + 1)%Z;
     default_currency := default_currency s |}.

(** Modelled from the spec: [POST /transactions/group] (sections 3, 4.1 and
    6). The ids are a set. An invalid request is answered 400 and changes
    nothing; otherwise the answer is 201 with the created group. *)
Definition group (request_ids : list Z) (s : State) : Z * payload * State :=
  let ids := nodup Z.eq_dec request_ids in
  if rejected s ids
  then (400%Z, Failure "invalid transaction ids", s)
  else (201%Z, One (new_group s ids), grouped s ids).

(** Modelled from the spec: ungrouping clears the parent of each child and
    deletes the group (section 3). *)
Definition detach (g : Z) (t : Transaction) : Transaction :=
  if has_parent g t then set_parent None t else t.

Definition ungrouped (s : State) (g : Z) : State :=
  {| store := map (detach g) (filter (fun t => negb (id t =? g)%Z) (store s));
     next_id := next_id s;
     default_currency := default_currency s |}.

(** Modelled from the spec: [DELETE /transactions/group/{id}] (sections 4.1
    and 6). An id that references no existing group is answered 404;
    otherwise the answer is 204. *)
Definition ungroup (g : Z) (s : State) : Z * payload * State :=
  match lookup g s with
  | Some t =>
      if is_group t then (204%Z, Nothing, ungrouped s g)
      else (404%Z, Failure "no such transaction group", s)
  | None => (404%Z, Failure "no such transaction group", s)
  end.

(** Modelled from the spec: the standard listing (section 3): the
    transactions of the queried range, children of a group excluded. *)
Definition listing (query : dict) (s : State) : list Transaction :=
  filter (fun t => parentless t && in_range query t) (store s).

(** Modelled from the spec: the wire form of a transaction: the fields of
    section 3, the parent under [parent_id] and [group_id], the fields the
    service model does not track as [null], and for a group its children
    under [children]. *)
Definition to_wire (t : Transaction) : value :=
  VDict
    ([("id", VInt (id t)); ("date", VStr (date t)); ("amount", VFloat (amount t));
      ("payee", VStr (payee t)); ("currency", VStr (currency t));
      ("status", VStr (status t)); ("category_id", VNone); ("asset_id", VNone);
      ("parent_id", opt VInt (parent_id t)); ("plaid_account_id", VNone);
      ("is_group", VBool (is_group t)); ("group_id", opt VInt (parent_id t));
      ("external_id", VNone); ("tags", VNone); ("notes", VNone)]
     ++ (if is_group t then [("children", VList (map VInt (children t)))] else []))%list.

(** *** The service behind the generated client *)

(** Modelled from the spec: the typed results of the generated client; the
    classes [GroupTransactions201Response] and [ErrorResponseObject] are
    missing, and section 6 makes the 201 body the created group transaction. *)
Inductive data :=
| GroupTransactions201Response (t : Transaction)
| ErrorResponseObject (message : string).

(** Modelled from the spec: an answer of the service as the response the
    transport hands to the client. *)
Definition respond (r : Z * payload * State)
  : result (GroupApi.REST.RESTResponse payload) * State :=
  let '(st, body, s') := r in
  (Ok {| GroupApi.REST.status := st; GroupApi.REST.headers := [];
         GroupApi.REST.data := body |}, s').

(** Modelled from the spec: the transport of the generated client: the two
    endpoints of section 6; any other request is answered 404. *)
Definition serve
    (request : GroupApi.SerializeArgs GroupTransactionsRequest)
    (_request_timeout : option (GroupApi.timeout Z)) (s : State)
  : result (GroupApi.REST.RESTResponse payload) * State :=
  if (GroupApi.method request =? "POST")
     && (GroupApi.resource_path request =? "/transactions/group")
  then
    match GroupApi.body request with
    | Some r => respond (group (ids r) s)
    | None => respond (400%Z, Failure "no body", s)
    end
  else if (GroupApi.method request =? "DELETE")
          && (GroupApi.resource_path request =? "/transactions/group/{id}")
  then
    match dict_get "id" (GroupApi.path_params request) with
    | Some g => respond (ungroup g s)
    | None => respond (404%Z, Failure "no id", s)
    end
  else respond (404%Z, Failure "no such endpoint", s).

(** Modelled from the spec: decoding a body as the type a response map
    names ([ApiClient.deserialize] and the response classes are missing). *)
Definition decode (response_type : string) (body : payload) : result data :=
  match body with
  | One t =>
      if response_type =? "GroupTransactions201Response"
      then Ok (GroupTransactions201Response t) else Raise PydanticValidationError
  | Failure m =>
      if response_type =? "ErrorResponseObject"
      then Ok (ErrorResponseObject m) else Raise PydanticValidationError
  | Nothing | Many _ => Raise PydanticValidationError
  end.

(** Modelled from the spec: the generated client connected to the service.
    Timeouts are whole milliseconds here, a header choice is the first one
    offered, and the built request is handed to the transport as it is. *)
#[export] Instance client : GroupApi.ApiClient := {|
  GroupApi.StrictFloat := Z;
  GroupApi.gt0 := fun t => (0 <? t)%Z;
  GroupApi.GroupTransactionsRequest := GroupTransactionsRequest;
  GroupApi.select_header_accept := @hd_error string;
  GroupApi.select_header_content_type := @hd_error string;
  GroupApi.RequestSerialized := GroupApi.SerializeArgs GroupTransactionsRequest;
  GroupApi.param_serialize := fun a => a;
  GroupApi.World := State;
  GroupApi.Bytes := payload;
  GroupApi.call_api := serve;
  GroupApi.Data := data;
  GroupApi.deserialize := decode;
  GroupApi.other_status := fun r _ => Raise (ApiException ServerError)
|}.

(** *** The service behind the hand-written SDK *)

(** Modelled from the spec: [_make_request] of the SDK's core client
    (lunchmoney/sdk/core.py) is missing. It issues the request, returns the
    decoded body of a success, and surfaces an error status as the typed
    error of its category. The listing is [GET transactions], a single
    transaction [GET transactions/<id>]. *)
Definition make_request
    (method : string) (url_path : value) (kw : Sdk.request_kwargs) (s : State)
  : result value * State :=
  if method =? "GET" then
    match url_path with
    | VStr path =>
        if path =? "transactions" then
          let query := match Sdk.params kw with Some q => q | None => [] end in
          (Ok (VDict [("transactions", VList (map to_wire (listing query s)))]), s)
        else (Raise (ApiException NotFoundError), s)
    | VList [VStr path; VInt i] =>
        if path =? "transactions" then
          match lookup i s with
          | Some t => (Ok (to_wire t), s)
          | None => (Raise (ApiException NotFoundError), s)
          end
        else (Raise (ApiException NotFoundError), s)
    | _ => (Raise (ApiException NotFoundError), s)
    end
  else (Raise (ApiException NotFoundError), s).

(** Modelled from the spec: the SDK connected to the service; the constants
    of [APIConfig] (lunchmoney/config.py, missing) name the two endpoints. *)
#[export] Instance core : Sdk.Core := {|
  Sdk.World := State;
  Sdk._make_request := make_request;
  Sdk.LUNCHMONEY_TRANSACTIONS := "transactions";
  Sdk.LUNCHMONEY_BUDGET := "budgets"
|}.

(** *** Well-formed and reachable states *)

(** Modelled from the spec: the states the service can be in (section 3).
    Ids are distinct and below the next id; a parent reference is below the
    next id; a group has no parent, and each of its children is a stored
    transaction that references it. *)
Record wf (s : State) : Prop := {
  wf_distinct : NoDup (map id (store s));
  wf_bound : forall t, In t (store s) -> (id t < next_id s)%Z;
  wf_parent_bound :
    forall t g, In t (store s) -> parent_id t = Some g -> (g < next_id s)%Z;
  wf_group_top :
    forall p, In p (store s) -> is_group p = true -> parent_id p = None;
  wf_children :
    forall p c, In p (store s) -> is_group p = true -> In c (children p) ->
    exists t, In t (store s) /\ id t = c /\ parent_id t = Some (id p)
}.

(** The states the client's group and ungroup calls lead to. *)
Inductive reachable (s0 : State) : State -> Prop :=
| reach_start : reachable s0 s0
| reach_group : forall s request o r s',
    reachable s0 s ->
    GroupApi.group_transactions request o s = (r, s') ->
    reachable s0 s'
| reach_ungroup : forall s g o r s',
    reachable s0 s ->
    GroupApi.ungroup_transactions g o s = (r, s') ->
    reachable s0 s'.

End Service.
End Service.

(** ** Sample instances and scenarios *)

Module Samples.
Import Model Service.

(** A nested model with the single field [id], which stands for the two
    item classes in the closed examples below. *)
Definition id_to_dict (n : Z) : value := VDict [("id", VInt n)].

Definition id_from_dict (v : value) : result (option Z) :=
  match v with
  | VNone => Ok None
  | VDict d =>
      match dict_get "id" d with
      | Some (VInt n) => Ok (Some n)
      | _ => Raise PydanticValidationError
      end
  | _ => Raise PydanticValidationError
  end.

#[export] Instance id_model : Wire.WireModel Z := {|
  Wire.model_dump := id_to_dict;
  Wire.to_dict := id_to_dict;
  Wire.from_dict := id_from_dict
|}.

(** The class as the module defines it, and the class once a
    [model_rebuild] from outside has completed it. Only the second has
    instances, and it is the one the closed examples below are about unless
    they name the first. *)
Definition shipped : ClassState := {| __pydantic_complete__ := false |}.

#[export] Instance rebuilt : ClassState := {| __pydantic_complete__ := true |}.

#[export] Instance rebuilt_complete : Complete rebuilt := eq_refl.

(** The claim that the wire names differ from the in-memory names. *)
Definition wire_names_distinct {T S} `{Wire.WireModel T} `{Wire.WireModel S}
    `{ClassState} (m : CreateNewTransactions201Response T S) : Prop :=
  forall k, In k (dict_keys (to_dict m)) -> ~ In k (map attribute model_fields).

(** Validators that accept the values of their own type and nothing else. *)
#[export] Instance strict_validators : Sdk.Validators := {|
  Sdk.validate_int := fun v => match v with VInt n => Some n | _ => None end;
  Sdk.validate_float := fun v => match v with VFloat h => Some h | _ => None end;
  Sdk.validate_str := fun v => match v with VStr s => Some s | _ => None end;
  Sdk.validate_bool := fun v => match v with VBool b => Some b | _ => None end;
  Sdk.parse_date := fun s => Some s;
  Sdk.validate_int_int := fun n => eq_refl;
  Sdk.validate_float_float := fun h => eq_refl;
  Sdk.validate_str_str := fun s => eq_refl;
  Sdk.validate_bool_bool := fun b => eq_refl
|}.

(** A core client that answers every request with the value the world holds. *)
Definition canned_core : Sdk.Core := {|
  Sdk.World := value;
  Sdk._make_request := fun _ _ _ w => (Ok w, w);
  Sdk.LUNCHMONEY_TRANSACTIONS := "transactions";
  Sdk.LUNCHMONEY_BUDGET := "budgets"
|}.

(** A service that converts one to one, dates every group the same way and
    lists every range in full. *)
#[export] Instance flat : Policy := {|
  convert := fun _ _ a => a;
  describe := fun _ => ("2024-01-31", "Group", "cleared");
  in_range := fun _ _ => true
|}.

Definition leaf (i a : Z) (c : string) : Transaction :=
  {| id := i; amount := a; currency := c; date := "2024-01-15"; payee := "Shop";
     status := "cleared"; parent_id := None; is_group := false; children := [] |}.

(** The keyword arguments of a call that sets none. *)
Definition defaults : @GroupApi.options (@client flat) :=
  {| GroupApi._request_timeout := None;
     GroupApi.request_auth := None;
     GroupApi._content_type := None;
     GroupApi._headers := None;
     GroupApi._host_index := 0 |}.

(** Transactions 10 and 11 of 5.00 USD and 3.00 USD. *)
Definition two_usd : State :=
  {| store := [leaf 10 500 "USD"; leaf 11 300 "USD"];
     next_id := 12;
     default_currency := "USD" |}.

(** Transactions 1, 2 and 3. *)
Definition three : State :=
  {| store := [leaf 1 100 "USD"; leaf 2 250 "USD"; leaf 3 50 "USD"];
     next_id := 4;
     default_currency := "USD" |}.

Definition request (l : list Z) : GroupTransactionsRequest := {| ids := l |}.

(** The two calls of the generated client, connected to that service. *)
Definition group_call := @GroupApi.group_transactions (@client flat).
Definition ungroup_call := @GroupApi.ungroup_transactions (@client flat).

(** The same client taken apart: the unread response is the answer of the
    service, reading it gives that answer and changes nothing, and the
    response of the HTTP library is its status with its payload. *)
#[export] Instance flat_raw : GroupApi.RawApiClient (@client flat).
Proof.
  refine {|
    GroupApi.Unread := GroupApi.REST.RESTResponse payload;
    GroupApi.HTTPResponse := Z * payload;
    GroupApi.call_api_unread := serve;
    GroupApi.response := fun r => (GroupApi.REST.status r, GroupApi.REST.data r);
    GroupApi.read := fun r s => (Ok r, s)
  |}.
  intros p t s. simpl. now destruct (serve p t s) as [[r|e] s'].
Defined.

(** The state after grouping 10 and 11, and after grouping 1, 2 and 3. *)
Definition two_usd_grouped : State :=
  snd (group_call (request [10; 11]%Z) defaults two_usd).

Definition three_grouped : State :=
  snd (group_call (request [1; 2; 3]%Z) defaults three).

(** The listing of [three_grouped] through the SDK. *)
Definition three_grouped_listing : result (list Sdk.TransactionsObject) :=
  fst (@Sdk.get_transactions (@core flat) strict_validators
         None None None three_grouped).

(** C8, as stated for this scenario: the listing has an object for the new
    group whose [children] are the grouped ids. *)
Definition listing_reports_children
    (listing : result (list Sdk.TransactionsObject)) (g : Z) (kids : list Z) : Prop :=
  exists objs x,
    listing = Ok objs /\ In x objs /\ Sdk.id x = Some g
    /\ Sdk.getattr x "children" = Ok (VList (map VInt kids)).

(** Validators that read a date from a text of ten characters only. *)
Definition dated_validators : Sdk.Validators := {|
  Sdk.validate_int := fun v => match v with VInt n => Some n | _ => None end;
  Sdk.validate_float := fun v => match v with VFloat h => Some h | _ => None end;
  Sdk.validate_str := fun v => match v with VStr s => Some s | _ => None end;
  Sdk.validate_bool := fun v => match v with VBool b => Some b | _ => None end;
  Sdk.parse_date := fun s => if (String.length s =? 10)%nat then Some s else None;
  Sdk.validate_int_int := fun n => eq_refl;
  Sdk.validate_float_float := fun h => eq_refl;
  Sdk.validate_str_str := fun s => eq_refl;
  Sdk.validate_bool_bool := fun b => eq_refl
|}.

(** Only a dictionary is read as a mapping. *)
#[export] Instance plain_mappings : Budgets.Mappings := {|
  Budgets.validate_dict := fun v => match v with VDict d => Some d | _ => None end;
  Budgets.validate_dict_dict := fun d => eq_refl
|}.

(** An item of a listing, with the [children] the service adds to a group,
    and the same item without them. *)
Definition listed_group : dict :=
  [("id", VInt 4); ("date", VStr "2024-01-31"); ("amount", VFloat 400);
   ("is_group", VBool true); ("children", VList [VInt 1; VInt 2; VInt 3])].

Definition listed_group_bare : dict :=
  [("id", VInt 4); ("date", VStr "2024-01-31"); ("amount", VFloat 400);
   ("is_group", VBool true)].

Definition listed_group_object : Sdk.TransactionsObject :=
  {| Sdk.id := Some 4%Z; Sdk.date := "2024-01-31"; Sdk.amount := 400;
     Sdk.payee := None; Sdk.currency := None; Sdk.status := None;
     Sdk.category_id := None; Sdk.asset_id := None; Sdk.parent_id := None;
     Sdk.plaid_account_id := None; Sdk.is_group := Some true; Sdk.group_id := None;
     Sdk.external_id := None; Sdk.tags := None; Sdk.notes := None |}.

(** An item of a budget summary and the object it decodes to. *)
Definition food_budget_item : value :=
  VDict [("category_name", VStr "Food"); ("category_id", VInt 7);
         ("is_income", VBool false); ("exclude_from_budget", VBool false);
         ("exclude_from_totals", VBool false);
         ("data", VDict [("2021-04-01",
                          VDict [("budget_amount", VFloat 12500);
                                 ("num_transactions", VInt 3)])]);
         ("config", VNone)].

Definition food_budget : Budgets.BudgetObject :=
  {| Budgets.category_name := "Food"; Budgets.category_id := Some 7%Z;
     Budgets.category_group_name := None; Budgets.group_id := None;
     Budgets.is_group := None; Budgets.is_income := false;
     Budgets.exclude_from_budget := false; Budgets.exclude_from_totals := false;
     Budgets.data :=
       [("2021-04-01",
         {| Budgets.budget_amount := Some 12500%Z; Budgets.budget_currency := None;
            Budgets.budget_to_base := None; Budgets.spending_to_base := 0;
            Budgets.num_transactions := 3 |})];
     Budgets.config := None |}.

End Samples.

(** * Properties *)

(** ** Dictionaries *)

Lemma dict_get_set_same {V} (k : string) (v : V) (d : list (string * V)) :
  dict_get k (dict_set k v d) = Some v.
Proof.
  induction d as [|[k' v'] d IH]; simpl.
  - now rewrite String.eqb_refl.
  - destruct (String.eqb k k') eqn:E; simpl; rewrite E; auto.
Qed.

Lemma comprehension_map {A B C} (f : B -> result C) (g : A -> B) (h : A -> C) (l : list A) :
  (forall a, f (g a) = Ok (h a)) ->
  comprehension f (map g l) = Ok (map h l).
Proof.
  intros H. induction l as [|a l IH]; simpl; [reflexivity|].
  now rewrite H, IH.
Qed.

Lemma all_some_map_Some {A} (l : list A) : all_some (map Some l) = Some l.
Proof. induction l as [|a l IH]; simpl; [reflexivity|now rewrite IH]. Qed.

Lemma dict_get_set_other {V} (k k' : string) (v : V) (d : list (string * V)) :
  k <> k' -> dict_get k (dict_set k' v d) = dict_get k d.
Proof.
  intros Hk. induction d as [|[k0 v0] d IH]; simpl.
  - destruct (String.eqb_spec k k'); congruence.
  - destruct (String.eqb_spec k' k0) as [->|Hn]; simpl.
    + destruct (String.eqb_spec k k0); congruence.
    + now rewrite IH.
Qed.

Lemma dict_get_absent {V} (k : string) (d : list (string * V)) :
  ~ In k (dict_keys d) -> dict_get k d = None.
Proof.
  induction d as [|[k0 v0] d IH]; simpl; [reflexivity|]. intros H.
  destruct (String.eqb_spec k k0) as [->|Hn]; [tauto|]. apply IH. tauto.
Qed.

(** After [d.update(e)] a key of [e] holds the value [e] gives it, and every
    other key the value it had; [e], a dictionary, has each key once. *)
Lemma dict_get_update {V} (k : string) (e d : list (string * V)) :
  NoDup (dict_keys e) ->
  dict_get k (dict_update d e)
  = match dict_get k e with
    | Some v => Some v
    | None => dict_get k d
    end.
Proof.
  unfold dict_update. revert d.
  induction e as [|[k0 v0] e IH]; intros d Hnd; simpl; [reflexivity|].
  inversion Hnd as [|? ? Hnotin Hnd']; subst.
  rewrite IH by assumption.
  destruct (String.eqb_spec k k0) as [->|Hn].
  - rewrite (dict_get_absent k0 e Hnotin). apply dict_get_set_same.
  - destruct (dict_get k e); [reflexivity|]. now apply dict_get_set_other.
Qed.

(** A comprehension that ends gives one result per item, in order. *)
Lemma comprehension_each {A B} (f : A -> result B) (xs : list A) (ys : list B) :
  comprehension f xs = Ok ys -> Forall2 (fun x y => f x = Ok y) xs ys.
Proof.
  revert ys. induction xs as [|x xs IH]; simpl; intros ys H.
  - injection H as <-. constructor.
  - destruct (f x) as [y|e] eqn:Ex; simpl in H; [|discriminate].
    destruct (comprehension f xs) as [ys'|e]; simpl in H; [|discriminate].
    injection H as <-. constructor; auto.
Qed.

Lemma all_some_with_none {A} (l : list (option A)) : In None l -> all_some l = None.
Proof.
  induction l as [|[a|] l IH]; simpl; intros H; try tauto.
  destruct H as [H|H]; [discriminate|]. now rewrite IH.
Qed.

(** ** The model *)

Module ModelFacts.
Import Model.

Section Facts.
Context {TransactionObject SkippedExistingExternalIdObject : Type}.
Context {TO : Wire.WireModel TransactionObject}.
Context {SK : Wire.WireModel SkippedExistingExternalIdObject}.
Context {class_state : ClassState}.
#[local] Abbreviation model :=
  (CreateNewTransactions201Response TransactionObject SkippedExistingExternalIdObject).

Lemma properties_are_wire_names : __properties = map wire_name model_fields.
Proof. reflexivity. Qed.

Lemma to_dict_transactions (m : model) :
  dict_get "transactions" (to_dict m) = Some (VList (map Wire.to_dict (transactions m))).
Proof.
  unfold to_dict, dump.
  destruct (transactions m) as [|t ts] eqn:Et;
    destruct (skipped_existing_external_ids m) as [[|x xs]|]; reflexivity.
Qed.

Lemma to_dict_skipped (m : model) :
  dict_get "skipped_existing_external_ids" (to_dict m) =
  match skipped_existing_external_ids m with
  | Some l => Some (VList (map Wire.to_dict l))
  | None => None
  end.
Proof.
  unfold to_dict, dump.
  destruct (transactions m) as [|t ts] eqn:Et;
    destruct (skipped_existing_external_ids m) as [[|x xs]|]; reflexivity.
Qed.

Lemma to_dict_keys (m : model) :
  dict_keys (to_dict m) =
  "transactions" ::
  match skipped_existing_external_ids m with
  | Some _ => ["skipped_existing_external_ids"]
  | None => []
  end.
Proof.
  unfold to_dict, dump.
  destruct (transactions m) as [|t ts] eqn:Et;
    destruct (skipped_existing_external_ids m) as [[|x xs]|]; reflexivity.
Qed.

(** C6, as amended: every optional field of the model (there is one,
    [skipped_existing_external_ids]) is omitted from the encoding exactly
    when it is unset; the required field is always there; and every key is
    the in-memory name of a declared field: the model declares no alias, so
    wire names and attribute names coincide. *)
Theorem to_dict_omits_unset_under_attribute_names (m : model) :
  (forall f, In f model_fields -> optional f = true ->
     f = f_skipped
     /\ (dict_get (wire_name f) (to_dict m) = None <->
         skipped_existing_external_ids m = None))
  /\ In "transactions" (dict_keys (to_dict m))
  /\ (forall k, In k (dict_keys (to_dict m)) -> In k (map attribute model_fields))
  /\ (forall f, In f model_fields -> wire_name f = attribute f).
Proof.
  split; [|split; [|split]].
  - intros f [<-|[<-|[]]] Hopt; [discriminate|]. split; [reflexivity|].
    change (wire_name f_skipped) with "skipped_existing_external_ids".
    rewrite to_dict_skipped.
    destruct (skipped_existing_external_ids m); split; congruence.
  - rewrite to_dict_keys. now left.
  - rewrite to_dict_keys. intros k [<-|Hk]; [simpl; tauto|].
    destruct (skipped_existing_external_ids m); simpl in *; tauto.
  - intros f [<-|[<-|[]]]; reflexivity.
Qed.

(** Two proofs that the class is complete are one. *)
Lemma complete_unique (c c' : Complete class_state) : c = c'.
Proof. apply Eqdep_dec.UIP_dec, bool_dec. Qed.

(** Validation gives an instance back from its own fields. *)
Lemma model_validate_fields (m : model) :
  model_validate (Some (map Some (transactions m)))
    (option_map (map Some) (skipped_existing_external_ids m))
  = Ok m.
Proof.
  unfold model_validate.
  destruct (bool_dec __pydantic_complete__ true) as [c|n];
    [|destruct n; exact (complete m)].
  rewrite all_some_map_Some.
  destruct m as [ts [ss|] c']; simpl; rewrite ?all_some_map_Some;
    now rewrite (complete_unique c c').
Qed.

(** Validation never passes a missing list, a list with [None] in it, or
    anything at all while the class is not fully defined. *)
Lemma model_validate_raises
    (ts : option (list (option TransactionObject)))
    (ss : option (list (option SkippedExistingExternalIdObject))) :
  ts = None \/ (exists l, ts = Some l /\ In None l) \/ __pydantic_complete__ = false ->
  exists e, model_validate ts ss = Raise e.
Proof.
  intros H. unfold model_validate.
  destruct (bool_dec __pydantic_complete__ true) as [c|n]; [|eexists; reflexivity].
  destruct H as [-> | [(l & -> & Hl) | H]].
  - eexists; reflexivity.
  - rewrite (all_some_with_none l Hl). eexists; reflexivity.
  - congruence.
Qed.

(** The first entry of the dictionary literal of [from_dict], on an encoding. *)
Lemma entry_transactions (m : model) :
  (forall t : TransactionObject, Wire.from_dict (Wire.to_dict t) = Ok (Some t)) ->
  entry "TransactionObject" (to_dict m) "transactions"
  = Ok (Some (map Some (transactions m))).
Proof.
  intros Hrt. unfold entry. rewrite to_dict_transactions. simpl.
  rewrite (comprehension_map _ Wire.to_dict Some); [reflexivity|].
  intros t. simpl. apply Hrt.
Qed.

(** X1: decoding an encoding whose optional list is empty or unset gives the
    model back, provided the item class round-trips. *)
Lemma from_dict_to_dict_without_skipped (m : model) :
  (forall t : TransactionObject, Wire.from_dict (Wire.to_dict t) = Ok (Some t)) ->
  skipped_existing_external_ids m = None \/ skipped_existing_external_ids m = Some [] ->
  from_dict (VDict (to_dict m)) = Ok (Some m).
Proof.
  intros Hrt Hs. pose proof (entry_transactions m Hrt) as Ht.
  unfold from_dict. rewrite Ht. simpl.
  unfold entry. rewrite to_dict_skipped.
  pose proof (model_validate_fields m) as Hm.
  destruct Hs as [Hs | Hs]; rewrite Hs in *; simpl in *; now rewrite Hm.
Qed.

(** Decoding an encoding whose optional list has an item raises [NameError]:
    the class of the items is not bound in the module. *)
Lemma from_dict_to_dict_with_skipped (m : model) x xs :
  (forall t : TransactionObject, Wire.from_dict (Wire.to_dict t) = Ok (Some t)) ->
  skipped_existing_external_ids m = Some (x :: xs) ->
  (from_dict (VDict (to_dict m)) : result (option model))
  = Raise (NameError "SkippedExistingExternalIdObject").
Proof.
  intros Hrt Hs. pose proof (entry_transactions m Hrt) as Ht.
  unfold from_dict. rewrite Ht. simpl.
  unfold entry. rewrite to_dict_skipped, Hs. reflexivity.
Qed.

(** C7, at its failing input for any item classes: an object whose
    [transactions] is the empty text, not a list, is never answered with
    pydantic's [ValidationError]. On the class as the module defines it the
    call raises [PydanticUserError], the error of a class that is not fully
    defined, which a well-formed object raises as well; once the class is
    completed the call returns a model whose list is empty. *)
Theorem empty_text_for_list_is_no_decode_error :
  (__pydantic_complete__ = false ->
     (from_dict (VDict [("transactions", VStr "")]) : result (option model))
     = Raise PydanticUserError
     /\ (from_dict (VDict [("transactions", VList [])]) : result (option model))
        = Raise PydanticUserError)
  /\ (forall complete : Complete class_state,
        from_dict (VDict [("transactions", VStr "")])
        = Ok (Some ({| transactions := []; skipped_existing_external_ids := None;
                       complete := complete |} : model)))
  /\ (from_dict (VDict [("transactions", VStr "")]) : result (option model))
     <> Raise PydanticValidationError.
Proof.
  assert (Hno : __pydantic_complete__ = false ->
                forall ts, (model_validate (Some ts) None : result model)
                           = Raise PydanticUserError).
  { intros H ts. unfold model_validate.
    destruct (bool_dec __pydantic_complete__ true); [congruence|reflexivity]. }
  assert (Hyes : forall complete : Complete class_state,
                   model_validate (Some []) None
                   = Ok ({| transactions := []; skipped_existing_external_ids := None;
                            complete := complete |} : model)).
  { intros c. exact (model_validate_fields
                       ({| transactions := []; skipped_existing_external_ids := None;
                           complete := c |} : model)). }
  split; [|split].
  - intros H. split; simpl; now rewrite (Hno H).
  - intros c. simpl. now rewrite (Hyes c).
  - simpl. destruct (bool_dec __pydantic_complete__ true) as [c|n].
    + now rewrite (Hyes c).
    + rewrite Hno; [discriminate|]. now apply not_true_is_false.
Qed.

(** X3: an object whose [transactions] is a number raises the builtin
    [TypeError]: the comprehension of line 100 iterates it before any
    validation. *)
Lemma from_dict_number_for_list (n : Z) :
  @from_dict _ _ TO SK _ (VDict [("transactions", VInt n)]) = Raise TypeError.
Proof. reflexivity. Qed.

(** The empty object raises pydantic's [ValidationError] once the class is
    completed, and [PydanticUserError] before. *)
Lemma from_dict_missing_required :
  @from_dict _ _ TO SK _ (VDict [])
  = Raise (if __pydantic_complete__ then PydanticValidationError else PydanticUserError).
Proof.
  simpl. unfold model_validate.
  destruct (bool_dec __pydantic_complete__ true) as [c|n].
  - now rewrite c.
  - now destruct __pydantic_complete__.
Qed.

(** X2: an object that lacks the required list, or gives it as [null],
    never decodes to a model. *)
Lemma from_dict_without_transactions (obj : dict) :
  dict_get "transactions" obj = None \/ dict_get "transactions" obj = Some VNone ->
  exists e, @from_dict _ _ TO SK _ (VDict obj) = Raise e.
Proof.
  intros H. unfold from_dict.
  assert (E : @entry TransactionObject TO "TransactionObject" obj "transactions" = Ok None)
    by (unfold entry; destruct H as [-> | ->]; reflexivity).
  rewrite E. simpl.
  destruct (entry "SkippedExistingExternalIdObject" obj "skipped_existing_external_ids")
    as [ss|e]; simpl; [|eexists; reflexivity].
  destruct (model_validate_raises None ss) as [e He]; [now left|].
  rewrite He. eexists; reflexivity.
Qed.

(** [from_json] is [from_dict] on what [json.loads] returns. *)
Lemma from_json_to_json json_dumps json_loads (m : model) :
  (forall v, json_loads (json_dumps v) = Ok v) ->
  from_json json_loads (to_json json_dumps m) = from_dict (VDict (to_dict m)).
Proof. intros H. unfold from_json, to_json. now rewrite H. Qed.

(** X7: the encoding holds, under the two attribute names, each item as
    the item's own [to_dict] encodes it; what pydantic's dump makes of an
    item never shows, and an empty list is encoded as an empty list. *)
Theorem to_dict_encodes_items_with_their_to_dict (m : model) :
  to_dict m
  = ("transactions", VList (map Wire.to_dict (transactions m)))
    :: match skipped_existing_external_ids m with
       | Some l => [("skipped_existing_external_ids", VList (map Wire.to_dict l))]
       | None => []
       end.
Proof.
  unfold to_dict, dump.
  destruct (transactions m) as [|t ts];
    destruct (skipped_existing_external_ids m) as [[|x xs]|]; reflexivity.
Qed.

(** Only [None] decodes to [None]. *)
Lemma from_dict_none (obj : value) :
  (from_dict obj : result (option model)) = Ok None -> obj = VNone.
Proof.
  destruct obj as [| | | | | |items|entries]; simpl;
    try (destruct __pydantic_complete__; discriminate); [reflexivity|].
  destruct (entry "TransactionObject" entries "transactions") as [ts|e];
    simpl; [|discriminate].
  destruct (entry "SkippedExistingExternalIdObject" entries
              "skipped_existing_external_ids") as [ss|e]; simpl; [|discriminate].
  destruct (model_validate ts ss); simpl; discriminate.
Qed.

(** The second entry of the dictionary literal of [from_dict] is [None] or
    an empty list whenever it is evaluated without an exception. *)
Lemma entry_skipped (obj : dict) ss :
  @entry SkippedExistingExternalIdObject SK "SkippedExistingExternalIdObject" obj
    "skipped_existing_external_ids" = Ok ss ->
  ss = None \/ ss = Some [].
Proof.
  unfold entry.
  destruct (dict_get "skipped_existing_external_ids" obj) as [v|];
    [|intros [= <-]; now left].
  destruct v as [| | | | | |items|entries]; simpl;
    try discriminate; try (intros [= <-]; now left).
  - destruct s as [|c s]; simpl; [intros [= <-]; now right|discriminate].
  - destruct items as [|i items]; simpl; [intros [= <-]; now right|discriminate].
  - destruct entries as [|kv entries]; simpl; [intros [= <-]; now right|discriminate].
Qed.

(** X8: a model that [from_dict] returns for a decoded value (what
    [json.loads] produces, whether a dictionary or not) never has an item in
    its optional list: decoding one needs the class
    [SkippedExistingExternalIdObject], which the module does not bind. Only
    an instance handed over in place of a dictionary keeps its items
    ([from_dict_instance]). *)
Theorem from_dict_never_fills_skipped (obj : value) (m : model) :
  from_dict obj = Ok (Some m) ->
  skipped_existing_external_ids m = None \/ skipped_existing_external_ids m = Some [].
Proof.
  destruct obj as [| | | | | |items|entries]; simpl;
    try (destruct __pydantic_complete__; discriminate).
  destruct (entry "TransactionObject" entries "transactions") as [ts|e];
    simpl; [|discriminate].
  destruct (entry "SkippedExistingExternalIdObject" entries
              "skipped_existing_external_ids") as [ss|e] eqn:Es; simpl; [|discriminate].
  apply entry_skipped in Es.
  unfold model_validate.
  destruct (bool_dec __pydantic_complete__ true) as [c|n]; simpl; [|discriminate].
  destruct ts as [ts|]; simpl; [|discriminate].
  destruct (all_some ts) as [ts'|]; simpl; [|discriminate].
  destruct Es as [-> | ->]; simpl; intros [= <-]; simpl; auto.
Qed.

(** An instance handed to [from_dict] in place of a dictionary comes back as
    it is, skipped ids included. *)
Lemma from_dict_instance (m : model) : from_dict (Instance m) = Ok (Some m).
Proof. reflexivity. Qed.

(** X9: [from_dict] reads the two declared keys and nothing else: objects
    that agree on them decode alike, whatever other keys they hold and in
    whatever order. *)
Theorem from_dict_reads_declared_keys_only (a b : dict) :
  dict_get "transactions" a = dict_get "transactions" b ->
  dict_get "skipped_existing_external_ids" a
  = dict_get "skipped_existing_external_ids" b ->
  @from_dict _ _ TO SK _ (VDict a) = from_dict (VDict b).
Proof.
  intros Ht Hs. unfold from_dict, entry. now rewrite Ht, Hs.
Qed.

(** X10: [from_json] gives back the model [to_json] was called on, when the
    optional list is unset or empty, the item class round-trips and
    [json.loads] reads back what [json.dumps] wrote for the encoding. *)
Theorem from_json_to_json_round_trip json_dumps json_loads (m : model) :
  json_loads (json_dumps (VDict (to_dict m))) = Ok (VDict (to_dict m)) ->
  (forall t : TransactionObject, Wire.from_dict (Wire.to_dict t) = Ok (Some t)) ->
  skipped_existing_external_ids m = None \/ skipped_existing_external_ids m = Some [] ->
  from_json json_loads (to_json json_dumps m) = Ok (Some m).
Proof.
  intros Hjson Hrt Hs. unfold from_json, to_json. rewrite Hjson. simpl.
  rewrite (entry_transactions m Hrt). simpl.
  unfold entry. rewrite to_dict_skipped.
  pose proof (model_validate_fields m) as Hm.
  destruct Hs as [Hs | Hs]; rewrite Hs in *; simpl in *; now rewrite Hm.
Qed.

(** X11: [from_json] returns [None] exactly when the text is read as
    [null]; any other text gives a model or raises. *)
Theorem from_json_none_iff_null json_loads (json_str : string) :
  (from_json json_loads json_str : result (option model)) = Ok None
  <-> json_loads json_str = Ok VNone.
Proof.
  unfold from_json. split.
  - destruct (json_loads json_str) as [obj|e]; simpl; [|discriminate].
    intros H. now rewrite (from_dict_none obj H).
  - intros ->. reflexivity.
Qed.

(** X12: a [transactions] list with an item that the item class decodes to
    [None] (the generated classes do so for [null]) never decodes to a
    model. *)
Theorem from_dict_item_decoded_to_none (obj : dict) (items : list value) (item : value) :
  dict_get "transactions" obj = Some (VList items) ->
  In item items ->
  (Wire.from_dict item : result (option TransactionObject)) = Ok None ->
  exists e, @from_dict _ _ TO SK _ (VDict obj) = Raise e.
Proof.
  intros Hget Hin Hnone. unfold from_dict.
  unfold entry at 1. rewrite Hget. simpl.
  destruct (comprehension _ items) as [l|e] eqn:Ec; simpl; [|eexists; reflexivity].
  assert (Hl : In None l).
  { apply comprehension_each in Ec. clear Hget.
    induction Ec as [|x y xs ys Hxy Hrest IH]; [destruct Hin|].
    destruct Hin as [->|Hin]; [|right; auto].
    left. simpl in Hxy. congruence. }
  destruct (entry "SkippedExistingExternalIdObject" obj "skipped_existing_external_ids")
    as [ss|e]; simpl; [|eexists; reflexivity].
  destruct (model_validate_raises (Some l) ss) as [e He]; [right; left; eauto|].
  rewrite He. eexists; reflexivity.
Qed.

End Facts.

End ModelFacts.

(** ** The generated client, over any transport *)

Module GroupApiFacts.
Import GroupApi.

Section Facts.
Context {client : ApiClient}.

Lemma response_deserialize_error resp map kind :
  error_category (REST.status resp) = Some kind ->
  response_deserialize resp map = Raise (ApiException kind).
Proof. intros H. unfold response_deserialize. now rewrite H. Qed.

Lemma response_deserialize_created resp :
  REST.status resp = 201%Z ->
  fmap Api.data (response_deserialize resp group_response_types_map)
  = fmap Some (deserialize "GroupTransactions201Response" (REST.data resp)).
Proof.
  intros H. unfold response_deserialize. rewrite H. simpl.
  destruct (deserialize _ _); reflexivity.
Qed.

(** What a group call does once the transport has answered. *)
Lemma group_transactions_answered request o w resp w' :
  validate_call o = Ok tt ->
  call_api (_group_transactions_serialize request o) (_request_timeout o) w = (Ok resp, w') ->
  group_transactions request o w
  = (fmap Api.data (response_deserialize resp group_response_types_map), w').
Proof.
  intros Hv Hc. unfold group_transactions. rewrite Hv, Hc. reflexivity.
Qed.

Lemma validate_call_raises o e :
  validate_call o = Raise e -> e = PydanticValidationError.
Proof.
  unfold validate_call. destruct (_ && _); [discriminate|]. now intros [= <-].
Qed.

(** C5: the request of a group call is a POST to /transactions/group whose
    body is the request model, with the content type the client selects for
    JSON unless the caller forces one; and once the transport has answered,
    201 yields the body decoded as the created group transaction, 400 a
    validation error, 401 an authentication error and 429 a rate-limit
    error. *)
Theorem group_call_request_and_statuses request o :
  (exists a,
      _group_transactions_serialize request o = param_serialize a
      /\ method a = "POST"
      /\ resource_path a = "/transactions/group"
      /\ body a = Some request
      /\ path_params a = []
      /\ query_params a = []
      /\ (forall c, _content_type o = None ->
            select_header_content_type ["application/json"] = Some c ->
            dict_get "Content-Type" (header_params a) = Some (Some c)))
  /\ (forall w resp w',
        validate_call o = Ok tt ->
        call_api (_group_transactions_serialize request o) (_request_timeout o) w
        = (Ok resp, w') ->
        (REST.status resp = 201%Z ->
         group_transactions request o w
         = (fmap Some (deserialize "GroupTransactions201Response" (REST.data resp)), w'))
        /\ (REST.status resp = 400%Z ->
            group_transactions request o w = (Raise (ApiException ValidationError), w'))
        /\ (REST.status resp = 401%Z ->
            group_transactions request o w = (Raise (ApiException AuthError), w'))
        /\ (REST.status resp = 429%Z ->
            group_transactions request o w = (Raise (ApiException RateLimitError), w'))).
Proof.
  split.
  - eexists. split; [reflexivity|]. simpl. repeat split.
    intros c Hct Hsel. rewrite Hct, Hsel. apply dict_get_set_same.
  - intros w resp w' Hv Hc.
    rewrite (group_transactions_answered _ _ _ _ _ Hv Hc).
    repeat split; intros Hst.
    + now rewrite response_deserialize_created.
    + now rewrite (response_deserialize_error _ _ ValidationError) by now rewrite Hst.
    + now rewrite (response_deserialize_error _ _ AuthError) by now rewrite Hst.
    + now rewrite (response_deserialize_error _ _ RateLimitError) by now rewrite Hst.
Qed.

(** C10: each plain method returns the [data] of what its [with_http_info]
    variant returns for the same arguments in the same world, and leaves the
    world as that variant does. *)
Theorem plain_is_data_of_with_http_info request id o w :
  group_transactions request o w
  = (fmap Api.data (fst (group_transactions_with_http_info request o w)),
     snd (group_transactions_with_http_info request o w))
  /\ ungroup_transactions id o w
     = (fmap Api.data (fst (ungroup_transactions_with_http_info id o w)),
        snd (ungroup_transactions_with_http_info id o w)).
Proof.
  unfold group_transactions, group_transactions_with_http_info,
    ungroup_transactions, ungroup_transactions_with_http_info.
  destruct (validate_call o) as [[]|e]; [|split; reflexivity].
  split.
  - destruct (call_api (_group_transactions_serialize request o) _ w) as [[resp|e] w'];
      reflexivity.
  - destruct (call_api (_ungroup_transactions_serialize id o) _ w) as [[resp|e] w'];
      reflexivity.
Qed.

(** X5: a call whose [_host_index] is not 0 fails the validation of its
    arguments: it raises pydantic's error and sends nothing. *)
Theorem invalid_host_index_sends_nothing request id o w :
  _host_index o <> 0%Z ->
  group_transactions request o w = (Raise PydanticValidationError, w)
  /\ ungroup_transactions id o w = (Raise PydanticValidationError, w).
Proof.
  intros Hh.
  assert (Hv : validate_call o = Raise PydanticValidationError).
  { unfold validate_call.
    destruct (Z.leb_spec 0 (_host_index o)), (Z.leb_spec (_host_index o) 0);
      rewrite ?andb_false_r; try reflexivity. lia. }
  unfold group_transactions, ungroup_transactions. now rewrite Hv.
Qed.

(** The shape of an ungroup request. *)
Lemma ungroup_request id o :
  exists a,
    _ungroup_transactions_serialize id o = param_serialize a
    /\ method a = "DELETE"
    /\ resource_path a = "/transactions/group/{id}"
    /\ path_params a = [("id", id)]
    /\ body a = None.
Proof. eexists. split; [reflexivity|]. simpl. repeat split. Qed.

(** A header as [accept_headers] leaves it: [Accept] gets the selected
    value when the caller gave none, every other header is the caller's. *)
Lemma accept_headers_get (o : options) (k : string) :
  dict_get k (accept_headers o)
  = if k =? "Accept" then
      match dict_get "Accept" (caller_headers o) with
      | Some v => Some v
      | None => Some (select_header_accept ["application/json"])
      end
    else dict_get k (caller_headers o).
Proof.
  unfold accept_headers, dict_mem, caller_headers.
  set (h := match _headers o with Some h => h | None => [] end).
  destruct (String.eqb_spec k "Accept") as [->|Hk].
  - destruct (dict_get "Accept" h) eqn:E; [exact E|apply dict_get_set_same].
  - destruct (dict_get "Accept" h); [reflexivity|now apply dict_get_set_other].
Qed.

(** The headers of a group request, but for [Content-Type]. *)
Lemma group_headers_get request o :
  exists a,
    _group_transactions_serialize request o = param_serialize a
    /\ (forall k, k <> "Content-Type" ->
          dict_get k (header_params a) = dict_get k (accept_headers o))
    /\ dict_get "Content-Type" (header_params a)
       = match _content_type o with
         | Some (String c s) => Some (Some (String c s))
         | Some EmptyString | None =>
             match select_header_content_type ["application/json"] with
             | Some d => Some (Some d)
             | None => dict_get "Content-Type" (accept_headers o)
             end
         end.
Proof.
  eexists. split; [reflexivity|]. simpl. split.
  - intros k Hk.
    destruct (_content_type o) as [[|c s]|];
      try destruct (select_header_content_type _);
      try reflexivity; now apply dict_get_set_other.
  - destruct (_content_type o) as [[|c s]|];
      try destruct (select_header_content_type _);
      try reflexivity; apply dict_get_set_same.
Qed.

(** X13: every header the caller passes reaches the request with its value:
    all of them on an ungroup request, all but [Content-Type] on a group
    request. [Accept] is added, with the value the client selects for JSON,
    only when the caller passed none; an ungroup request gets no other
    header. *)
Theorem caller_headers_are_kept request id o :
  (exists a,
      _group_transactions_serialize request o = param_serialize a
      /\ (forall k v, k <> "Content-Type" -> dict_get k (caller_headers o) = Some v ->
            dict_get k (header_params a) = Some v)
      /\ (dict_get "Accept" (caller_headers o) = None ->
            dict_get "Accept" (header_params a)
            = Some (select_header_accept ["application/json"])))
  /\ (exists a,
        _ungroup_transactions_serialize id o = param_serialize a
        /\ (forall k v, dict_get k (caller_headers o) = Some v ->
              dict_get k (header_params a) = Some v)
        /\ (dict_get "Accept" (caller_headers o) = None ->
              dict_get "Accept" (header_params a)
              = Some (select_header_accept ["application/json"]))
        /\ (forall k, k <> "Accept" ->
              dict_get k (header_params a) = dict_get k (caller_headers o))).
Proof.
  split.
  - destruct (group_headers_get request o) as (a & Ha & Hother & _).
    exists a. split; [exact Ha|]. split.
    + intros k v Hk Hv. rewrite (Hother k Hk), accept_headers_get.
      destruct (String.eqb_spec k "Accept") as [->|_]; now rewrite Hv.
    + intros Hnone. rewrite (Hother "Accept") by discriminate.
      rewrite accept_headers_get. simpl. now rewrite Hnone.
  - eexists. split; [reflexivity|]. simpl. split; [|split].
    + intros k v Hv. rewrite accept_headers_get.
      destruct (String.eqb_spec k "Accept") as [->|_]; now rewrite Hv.
    + intros Hnone. rewrite accept_headers_get. simpl. now rewrite Hnone.
    + intros k Hk. rewrite accept_headers_get.
      now destruct (String.eqb_spec k "Accept").
Qed.

(** X14: the [Content-Type] of a group request is the one the caller forces
    with [_content_type], unless that is the empty text; otherwise the one
    the client selects for JSON, which replaces a [Content-Type] passed among
    the headers; the caller's header counts only when the client selects
    none. An ungroup request has a [Content-Type] only if the caller passed
    one among the headers. *)
Theorem content_type_precedence request id o :
  (exists a,
      _group_transactions_serialize request o = param_serialize a
      /\ dict_get "Content-Type" (header_params a)
         = match _content_type o with
           | Some (String c s) => Some (Some (String c s))
           | Some EmptyString | None =>
               match select_header_content_type ["application/json"] with
               | Some d => Some (Some d)
               | None => dict_get "Content-Type" (caller_headers o)
               end
           end)
  /\ (exists a,
        _ungroup_transactions_serialize id o = param_serialize a
        /\ dict_get "Content-Type" (header_params a)
           = dict_get "Content-Type" (caller_headers o)).
Proof.
  split.
  - destruct (group_headers_get request o) as (a & Ha & _ & Hct).
    exists a. split; [exact Ha|]. rewrite Hct.
    now rewrite accept_headers_get.
  - eexists. split; [reflexivity|]. simpl. now rewrite accept_headers_get.
Qed.

(** A timeout that is not positive fails the validation of the arguments. *)
Lemma validate_call_timeout o :
  match _request_timeout o with
  | Some (Total t) => gt0 t = false
  | Some (ConnectRead c r) => gt0 c = false \/ gt0 r = false
  | None => False
  end ->
  validate_call o = Raise PydanticValidationError.
Proof.
  unfold validate_call.
  destruct (_request_timeout o) as [[t|c r]|]; [| |tauto].
  - now intros ->.
  - intros [-> | ->]; [reflexivity|]. now rewrite andb_false_r.
Qed.

Context {raw : RawApiClient client}.

(** X15: a call whose timeout is not positive (the total, or either of the
    connection and read timeouts) raises pydantic's error and sends nothing,
    in each of the six methods. *)
Theorem non_positive_timeout_sends_nothing request id o w :
  match _request_timeout o with
  | Some (Total t) => gt0 t = false
  | Some (ConnectRead c r) => gt0 c = false \/ gt0 r = false
  | None => False
  end ->
  group_transactions request o w = (Raise PydanticValidationError, w)
  /\ group_transactions_with_http_info request o w = (Raise PydanticValidationError, w)
  /\ group_transactions_without_preload_content request o w
     = (Raise PydanticValidationError, w)
  /\ ungroup_transactions id o w = (Raise PydanticValidationError, w)
  /\ ungroup_transactions_with_http_info id o w = (Raise PydanticValidationError, w)
  /\ ungroup_transactions_without_preload_content id o w
     = (Raise PydanticValidationError, w).
Proof.
  intros Ht. apply validate_call_timeout in Ht.
  unfold group_transactions, group_transactions_with_http_info,
    group_transactions_without_preload_content, ungroup_transactions,
    ungroup_transactions_with_http_info, ungroup_transactions_without_preload_content.
  rewrite Ht. repeat split.
Qed.

(** X16: a [with_http_info] method makes the call its
    [without_preload_content] variant makes, then reads the response and
    decodes it. Whenever the variant returns, what it returns is the
    [response] attribute of an unread response, and the method returns what
    [response_deserialize] makes, with the response map of the method, of
    that response read in the world the variant left; whenever the variant
    raises, the method raises the same in the same world. *)
Theorem with_http_info_reads_what_without_preload_returns request id o w :
  (forall http_response w',
      group_transactions_without_preload_content request o w = (Ok http_response, w') ->
      exists response_data,
        response response_data = http_response
        /\ group_transactions_with_http_info request o w
           = match read response_data w' with
             | (Ok r, w'') => (response_deserialize r group_response_types_map, w'')
             | (Raise e, w'') => (Raise e, w'')
             end)
  /\ (forall e w',
        group_transactions_without_preload_content request o w = (Raise e, w') ->
        group_transactions_with_http_info request o w = (Raise e, w'))
  /\ (forall http_response w',
        ungroup_transactions_without_preload_content id o w = (Ok http_response, w') ->
        exists response_data,
          response response_data = http_response
          /\ ungroup_transactions_with_http_info id o w
             = match read response_data w' with
               | (Ok r, w'') =>
                   (response_deserialize r
                      [("204", None);
                       ("401", Some "ErrorResponseObject");
                       ("404", Some "ErrorResponseObject");
                       ("429", Some "ErrorResponseObject");
                       ("500", Some "ErrorResponseObject")], w'')
               | (Raise e, w'') => (Raise e, w'')
               end)
  /\ (forall e w',
        ungroup_transactions_without_preload_content id o w = (Raise e, w') ->
        ungroup_transactions_with_http_info id o w = (Raise e, w')).
Proof.
  unfold group_transactions_with_http_info, group_transactions_without_preload_content,
    ungroup_transactions_with_http_info, ungroup_transactions_without_preload_content.
  destruct (validate_call o) as [[]|e0].
  - rewrite !call_api_is_read.
    destruct (call_api_unread (_group_transactions_serialize request o) _ w)
      as [[u|e1] w1];
      destruct (call_api_unread (_ungroup_transactions_serialize id o) _ w)
        as [[u'|e2] w2];
      repeat split; intros x w' H; try discriminate;
      injection H as <- <-; try reflexivity;
      eexists; (split; [reflexivity|]);
      match goal with |- context [read ?r ?s] => now destruct (read r s) as [[?|?] ?] end.
  - repeat split; intros x w' H; try discriminate; now injection H as <- <-.
Qed.

End Facts.
End GroupApiFacts.

(** ** The SDK, over any core client *)

Module SdkFacts.
Import Sdk.

(** X4: a [TransactionsObject] has no attribute [children]: it is not one of
    the declared fields, and reading it raises [AttributeError]. *)
Theorem transactions_object_has_no_children (x : TransactionsObject) :
  getattr x "children" = Raise (AttributeError "children")
  /\ ~ In "children" TransactionsObject_fields.
Proof.
  split; [reflexivity|]. simpl. intuition discriminate.
Qed.

(** C9: when the core client returns a dictionary for the PUT request,
    [upsert_budget] returns the value under [category_group], and raises
    [KeyError] when the dictionary has no such key. *)
Theorem upsert_budget_category_group
    {core : Core} start_date category_id amount currency w d w' :
  _make_request "PUT" (VList [VStr LUNCHMONEY_BUDGET])
    {| params := None;
       payload := Some (BudgetParamsPut_dict start_date category_id amount currency);
       json := None |} w
  = (Ok (VDict d), w') ->
  upsert_budget start_date category_id amount currency w
  = (match dict_get "category_group" d with
     | Some v => Ok v
     | None => Raise (KeyError "category_group")
     end, w').
Proof.
  intros H. unfold upsert_budget. rewrite H. reflexivity.
Qed.

(** X6: a listing whose response is a dictionary without the key of the
    transactions raises [KeyError], in the world the request left. *)
Theorem get_transactions_needs_transactions_key
    {core : Core} {validators : Validators} start_date end_date params q w d w' :
  search_params_of start_date end_date params = Ok q ->
  _make_request "GET" (VStr LUNCHMONEY_TRANSACTIONS)
    {| Sdk.params := Some q; payload := None; json := None |} w
  = (Ok (VDict d), w') ->
  dict_get LUNCHMONEY_TRANSACTIONS d = None ->
  get_transactions start_date end_date params w
  = (Raise (KeyError LUNCHMONEY_TRANSACTIONS), w').
Proof.
  intros Hq Hr Hd. unfold get_transactions. rewrite Hq, Hr.
  unfold getitem. now rewrite Hd.
Qed.

(** X17: in the query of a listing the caller's [params] win: a key they
    hold is sent with their value, also [start_date] and [end_date]; every
    other key is sent as the date arguments give it. *)
Theorem params_override_the_dates
    {validators : Validators} start_date end_date (params : dict) q :
  NoDup (dict_keys params) ->
  search_params_of start_date end_date (Some params) = Ok q ->
  exists dates,
    TransactionParamsGet_dict start_date end_date = Ok dates
    /\ forall k,
         dict_get k q
         = match dict_get k params with
           | Some v => Some v
           | None => dict_get k dates
           end.
Proof.
  intros Hnd. unfold search_params_of.
  destruct (TransactionParamsGet_dict start_date end_date) as [dates|e];
    simpl; [|discriminate].
  intros [= <-]. exists dates. split; [reflexivity|].
  intros k. now apply dict_get_update.
Qed.

(** A date argument that is a text pydantic cannot read as a date fails the
    validation of the query. *)
Lemma unreadable_date {validators : Validators} s start_date end_date :
  parse_date s = None ->
  start_date = Some (AText s) \/ end_date = Some (AText s) ->
  TransactionParamsGet_dict start_date end_date = Raise PydanticValidationError.
Proof.
  intros Hs [-> | ->]; unfold TransactionParamsGet_dict; simpl; rewrite Hs.
  - reflexivity.
  - destruct start_date as [d|]; [destruct (validate_date d)|]; reflexivity.
Qed.

(** X18: a listing whose start or end date is a text that cannot be read as
    a date raises pydantic's error and sends no request, whatever [params]
    holds. *)
Theorem unreadable_date_sends_nothing
    {core : Core} {validators : Validators} s start_date end_date params w :
  parse_date s = None ->
  start_date = Some (AText s) \/ end_date = Some (AText s) ->
  get_transactions start_date end_date params w = (Raise PydanticValidationError, w).
Proof.
  intros Hs Hd. unfold get_transactions, search_params_of.
  now rewrite (unreadable_date s start_date end_date Hs Hd).
Qed.

(** X19: a listing that returns has sent one GET request with the query of
    its arguments, found an iterable under the key of the transactions in
    the response, and decoded every item of it: the objects are as many as
    the items, in their order, each the decoding of its item. *)
Theorem get_transactions_decodes_every_item
    {core : Core} {validators : Validators} start_date end_date params w objs w' :
  get_transactions start_date end_date params w = (Ok objs, w') ->
  exists q response_data items,
    search_params_of start_date end_date params = Ok q
    /\ _make_request "GET" (VStr LUNCHMONEY_TRANSACTIONS)
         {| Sdk.params := Some q; payload := None; json := None |} w
       = (Ok response_data, w')
    /\ (transactions <- getitem response_data LUNCHMONEY_TRANSACTIONS ;;
        iter transactions) = Ok items
    /\ Forall2 (fun item x => TransactionsObject_of item = Ok x) items objs.
Proof.
  unfold get_transactions.
  destruct (search_params_of start_date end_date params) as [q|e]; [|discriminate].
  destruct (_make_request "GET" (VStr LUNCHMONEY_TRANSACTIONS) _ w)
    as [[response_data|e] w1] eqn:Er; [|discriminate].
  intros [= Hc <-].
  destruct (getitem response_data LUNCHMONEY_TRANSACTIONS) as [t|e] eqn:Eg;
    simpl in Hc; [|discriminate].
  destruct (iter t) as [items|e] eqn:Ei; simpl in Hc; [|discriminate].
  exists q, response_data, items.
  split; [reflexivity|]. split; [exact Er|]. split.
  - rewrite Eg. simpl. exact Ei.
  - now apply comprehension_each.
Qed.

(** An item without [date] or without [amount] is not a transaction. *)
Lemma transactions_object_required {validators : Validators} (d : dict) :
  dict_get "date" d = None \/ dict_get "amount" d = None ->
  TransactionsObject_of (VDict d) = Raise PydanticValidationError.
Proof.
  intros H. unfold TransactionsObject_of.
  assert (E : required validate_str "date" d = None
              \/ required validate_float "amount" d = None)
    by (unfold required; destruct H as [-> | ->]; auto).
  destruct (optional validate_int "id" d); [|reflexivity].
  destruct E as [-> | E]; [reflexivity|].
  destruct (required validate_str "date" d); [|reflexivity].
  now rewrite E.
Qed.

(** X20: [get_transaction] decodes the response itself: a response that is
    not a dictionary raises [TypeError], a dictionary without [date] or
    without [amount] raises pydantic's error, both in the world the request
    left. *)
Theorem get_transaction_needs_a_full_dictionary
    {core : Core} {validators : Validators} transaction_id w response_data w' :
  _make_request "GET" (VList [VStr LUNCHMONEY_TRANSACTIONS; VInt transaction_id])
    no_kwargs w = (Ok response_data, w') ->
  get_transaction transaction_id w
  = (match response_data with
     | VDict d =>
         match dict_get "date" d, dict_get "amount" d with
         | Some _, Some _ => TransactionsObject_of response_data
         | _, _ => Raise PydanticValidationError
         end
     | _ => Raise TypeError
     end, w').
Proof.
  intros Hr. unfold get_transaction. rewrite Hr. f_equal.
  destruct response_data as [| | | | | |items|d]; try reflexivity.
  destruct (dict_get "date" d) eqn:Ed;
    [destruct (dict_get "amount" d) eqn:Ea; [reflexivity|]|];
    apply transactions_object_required; auto.
Qed.

(** X21: a [TransactionsObject] is made of the fifteen declared fields and
    nothing else: items that agree on them decode alike, so that a key such
    as [children] leaves no trace. *)
Theorem transactions_object_ignores_undeclared_keys
    {validators : Validators} (a b : dict) :
  (forall k, In k TransactionsObject_fields -> dict_get k a = dict_get k b) ->
  TransactionsObject_of (VDict a) = TransactionsObject_of (VDict b).
Proof.
  intros H. unfold TransactionsObject_of, required, optional.
  rewrite !(H "id"), !(H "date"), !(H "amount"), !(H "payee"), !(H "currency"),
    !(H "status"), !(H "category_id"), !(H "asset_id"), !(H "parent_id"),
    !(H "plaid_account_id"), !(H "is_group"), !(H "group_id"), !(H "external_id"),
    !(H "tags"), !(H "notes") by (simpl; tauto).
  reflexivity.
Qed.

(** X22: [upsert_budget] subscripts the response as it comes: a response
    that is not a dictionary raises [TypeError], in the world the request
    left. *)
Theorem upsert_budget_needs_a_dictionary
    {core : Core} start_date category_id amount currency w response_data w' :
  _make_request "PUT" (VList [VStr LUNCHMONEY_BUDGET])
    {| params := None;
       payload := Some (BudgetParamsPut_dict start_date category_id amount currency);
       json := None |} w
  = (Ok response_data, w') ->
  (forall d, response_data <> VDict d) ->
  upsert_budget start_date category_id amount currency w = (Raise TypeError, w').
Proof.
  intros Hr Hd. unfold upsert_budget. rewrite Hr. f_equal.
  destruct response_data; try reflexivity. now destruct (Hd entries).
Qed.

End SdkFacts.

(** ** The SDK: updating a transaction *)

Module UpdateFacts.
Import Sdk Update.

(** The update object is dumped without the fields that were not set. *)
Lemma update_object_dict_keys (t : TransactionUpdateObject) (k : string) :
  In k (dict_keys (TransactionUpdateObject_dict t)) -> In k (__fields_set__ t).
Proof.
  unfold TransactionUpdateObject_dict, dict_keys. rewrite in_map_iff.
  intros ([k' v] & <- & Hin). apply filter_In in Hin as [_ Hex]. simpl in *.
  apply existsb_exists in Hex as (x & Hx & Heq).
  apply String.eqb_eq in Heq. now subst.
Qed.

(** X23: [update_transaction] never sends the caller's [split] object, and
    never a field that was not set on the update object: it either raises
    pydantic's error before any request, or makes one PUT request to the
    path of the transaction and returns the response as it comes; the body
    holds the four keys of the parameters, [split] being [None] or a
    boolean, and [transaction] a dictionary whose keys were all set by the
    caller. *)
Theorem update_transaction_never_sends_a_split_object
    {core : Core} {validators : Validators}
    transaction_id transaction split debit_as_negative skip_balance_update w :
  update_transaction transaction_id transaction split debit_as_negative
    skip_balance_update w = (Raise PydanticValidationError, w)
  \/ exists body,
       update_transaction transaction_id transaction split debit_as_negative
         skip_balance_update w
       = _make_request "PUT" (VList [VStr LUNCHMONEY_TRANSACTIONS; VInt transaction_id])
           {| params := None; payload := None; json := Some body |} w
       /\ dict_keys body
          = ["split"; "transaction"; "debit_as_negative"; "skip_balance_update"]
       /\ (dict_get "split" body = Some VNone
           \/ exists b, dict_get "split" body = Some (VBool b))
       /\ (exists sent,
             dict_get "transaction" body = Some (VDict sent)
             /\ forall k, In k (dict_keys sent) -> In k (__fields_set__ transaction)).
Proof.
  unfold update_transaction, TransactionUpdateParamsPut_dict.
  set (validated := match split with VNone => Some None | _ => _ end).
  destruct validated as [[b|]|]; [right|right|left; reflexivity];
    eexists; (split; [reflexivity|]); simpl;
    (split; [reflexivity|]); (split; [eauto|]);
    (eexists; split; [reflexivity|apply update_object_dict_keys]).
Qed.

End UpdateFacts.

(** ** The SDK: the budget summary *)

Module BudgetsFacts.
Import Sdk Budgets.

(** X24: [get_budgets] iterates the response whatever it is. A dictionary,
    as an error object is, yields its keys, and a key cannot be unpacked: the
    call raises [TypeError] unless the dictionary is empty, when it returns
    no budget at all. Both leave the world as the request did. *)
Theorem get_budgets_on_a_dictionary
    {core : Core} {validators : Validators} {mappings : Mappings}
    start_date end_date w (d : dict) w' :
  _make_request "GET" (VList [VStr LUNCHMONEY_BUDGET])
    {| params := Some (BudgetParamsGet_dict start_date end_date);
       payload := None; json := None |} w
  = (Ok (VDict d), w') ->
  get_budgets start_date end_date w
  = (match d with
     | [] => Ok []
     | _ :: _ => Raise TypeError
     end, w').
Proof.
  intros Hr. unfold get_budgets. rewrite Hr. f_equal.
  destruct d as [|[k v] d]; reflexivity.
Qed.

(** X25: a budget summary that returns has made one GET request with the
    two dates as its query and decoded every item the response yields: the
    budgets are as many as the items, in their order, each the decoding of
    its item. *)
Theorem get_budgets_decodes_every_item
    {core : Core} {validators : Validators} {mappings : Mappings}
    start_date end_date w budgets w' :
  get_budgets start_date end_date w = (Ok budgets, w') ->
  exists response_data items,
    _make_request "GET" (VList [VStr LUNCHMONEY_BUDGET])
      {| params := Some [("start_date", VDate start_date); ("end_date", VDate end_date)];
         payload := None; json := None |} w
    = (Ok response_data, w')
    /\ iter response_data = Ok items
    /\ Forall2 (fun item b => BudgetObject_of item = Ok b) items budgets.
Proof.
  unfold get_budgets, BudgetParamsGet_dict.
  destruct (_make_request "GET" (VList [VStr LUNCHMONEY_BUDGET]) _ w)
    as [[response_data|e] w1] eqn:Er; [|discriminate].
  intros [= Hc <-].
  destruct (iter response_data) as [items|e] eqn:Ei; simpl in Hc; [|discriminate].
  exists response_data, items. repeat split; try assumption.
  now apply comprehension_each.
Qed.

Lemma field_absent {A} (validate : value -> option A) (k : string) (item : dict) :
  dict_get k item = None \/ dict_get k item = Some VNone ->
  field validate k item = None.
Proof. unfold field. now intros [-> | ->]. Qed.

(** X26: an item of the summary that has no value (the key is missing, or
    holds [None]) for [category_name], [is_income], [exclude_from_budget],
    [exclude_from_totals] or [data] is rejected with pydantic's error,
    whatever the validators and the other keys. *)
Theorem budget_object_needs_its_required_fields
    {validators : Validators} {mappings : Mappings} (item : dict) (k : string) :
  In k ["category_name"; "is_income"; "exclude_from_budget"; "exclude_from_totals";
        "data"] ->
  dict_get k item = None \/ dict_get k item = Some VNone ->
  BudgetObject_of (VDict item) = Raise PydanticValidationError.
Proof.
  intros Hk Hv. unfold BudgetObject_of.
  destruct Hk as [<-|[<-|[<-|[<-|[<-|[]]]]]];
    rewrite (field_absent _ _ item Hv);
    repeat match goal with
           | |- context [match ?x with _ => _ end] =>
               match x with
               | field _ _ _ => destruct x
               | optional _ _ _ => destruct x
               end
           end; reflexivity.
Qed.

End BudgetsFacts.

(** ** The service: well-formed states *)

Module ServiceFacts.
Import Service.

Lemma mem_In i l : mem i l = true <-> In i l.
Proof.
  unfold mem. rewrite existsb_exists. split.
  - intros [x [Hx E]]. apply Z.eqb_eq in E. now subst.
  - intros H. exists i. split; [assumption|apply Z.eqb_refl].
Qed.

Lemma attach_id g ids t : id (attach g ids t) = id t.
Proof. unfold attach. now destruct (mem (id t) ids). Qed.

Lemma detach_id g t : id (detach g t) = id t.
Proof. unfold detach. now destruct (has_parent g t). Qed.

Lemma map_id_attach g ids l : map id (map (attach g ids) l) = map id l.
Proof. rewrite map_map. apply map_ext. intros t. apply attach_id. Qed.

Lemma map_id_detach g l : map id (map (detach g) l) = map id l.
Proof. rewrite map_map. apply map_ext. intros t. apply detach_id. Qed.

Lemma has_parent_true g t : has_parent g t = true <-> parent_id t = Some g.
Proof.
  unfold has_parent. destruct (parent_id t) as [p|]; [|split; discriminate].
  rewrite Z.eqb_eq. split; congruence.
Qed.

Lemma parentless_true t : parentless t = true <-> parent_id t = None.
Proof. unfold parentless. destruct (parent_id t); split; congruence. Qed.

(** *** Looking a transaction up by id *)

Lemma find_unique (l : list Transaction) t :
  NoDup (map id l) -> In t l -> find (fun x => (id x =? id t)%Z) l = Some t.
Proof.
  induction l as [|a l IH]; simpl; [tauto|].
  intros Hnd [->|Hin].
  - now rewrite Z.eqb_refl.
  - apply NoDup_cons_iff in Hnd as [Hna Hnd].
    destruct (Z.eqb_spec (id a) (id t)) as [E|E].
    + exfalso. apply Hna. rewrite E. now apply in_map.
    + now apply IH.
Qed.

Lemma lookup_some i s t : lookup i s = Some t -> In t (store s) /\ id t = i.
Proof.
  unfold lookup. intros H. apply find_some in H as [Hin E].
  apply Z.eqb_eq in E. now split.
Qed.

Lemma lookup_none i s t : lookup i s = None -> In t (store s) -> id t <> i.
Proof.
  unfold lookup. intros H Hin. apply (find_none _ _ H) in Hin.
  now apply Z.eqb_neq.
Qed.

Lemma lookup_in s t :
  NoDup (map id (store s)) -> In t (store s) -> lookup (id t) s = Some t.
Proof. apply find_unique. Qed.

(** Dropping stored transactions keeps the ids distinct. *)
Lemma distinct_ids_filter (keep : Transaction -> bool) (txs : list Transaction) :
  NoDup (map id txs) -> NoDup (map id (filter keep txs)).
Proof.
  induction txs as [|t txs IH]; simpl; [trivial|].
  intros Hnd. apply NoDup_cons_iff in Hnd as [Hfresh Hnd].
  specialize (IH Hnd). destruct (keep t); simpl; [|exact IH].
  constructor; [|exact IH]. intros Hin. apply Hfresh.
  apply in_map_iff in Hin as [x [E Hx]]. apply filter_In in Hx as [Hx _].
  rewrite <- E. now apply in_map.
Qed.

(** *** Requests the service accepts *)

Lemma groupable_spec s i :
  groupable s i = true ->
  exists t, lookup i s = Some t /\ is_group t = false /\ parent_id t = None.
Proof.
  unfold groupable. destruct (lookup i s) as [t|]; [|discriminate].
  intros H. apply andb_prop in H as [H1 H2]. exists t. repeat split.
  - now destruct (is_group t).
  - now apply parentless_true.
Qed.

Lemma rejected_false s ids :
  rejected s ids = false ->
  (2 <= List.length ids)%nat /\ forall i, In i ids -> groupable s i = true.
Proof.
  unfold rejected. intros H. apply orb_false_elim in H as [H1 H2].
  apply Nat.ltb_ge in H1. apply negb_false_iff in H2.
  split; [assumption|]. now apply forallb_forall.
Qed.

Lemma rejected_few s ids : (List.length ids < 2)%nat -> rejected s ids = true.
Proof.
  intros H. unfold rejected. apply Nat.ltb_lt in H. now rewrite H.
Qed.

Section Facts.
Context {policy : Policy}.

Lemma new_group_id s ids : id (new_group s ids) = next_id s.
Proof. unfold new_group. now destruct (describe _) as [[d p] st]. Qed.

Lemma new_group_parent s ids : parent_id (new_group s ids) = None.
Proof. unfold new_group. now destruct (describe _) as [[d p] st]. Qed.

Lemma new_group_is_group s ids : is_group (new_group s ids) = true.
Proof. unfold new_group. now destruct (describe _) as [[d p] st]. Qed.

Lemma new_group_children s ids : children (new_group s ids) = ids.
Proof. unfold new_group. now destruct (describe _) as [[d p] st]. Qed.

Lemma new_group_amount s ids :
  amount (new_group s ids) = snd (total s (named ids (store s))).
Proof. unfold new_group. now destruct (describe _) as [[d p] st]. Qed.

Lemma new_group_currency s ids :
  currency (new_group s ids) = fst (total s (named ids (store s))).
Proof. unfold new_group. now destruct (describe _) as [[d p] st]. Qed.

(** A transaction an accepted request names is an ungrouped leaf. *)
Lemma named_is_leaf s ids t :
  wf s -> rejected s ids = false -> In t (store s) -> mem (id t) ids = true ->
  is_group t = false /\ parent_id t = None.
Proof.
  intros Hwf Hacc Ht Hm. apply rejected_false in Hacc as [_ Hgr].
  apply mem_In in Hm. destruct (groupable_spec _ _ (Hgr _ Hm)) as [t' [Hl Hleaf]].
  rewrite (lookup_in s t (wf_distinct s Hwf) Ht) in Hl. now injection Hl as <-.
Qed.

(** Grouping keeps a state well formed. *)
Lemma wf_grouped s ids : wf s -> rejected s ids = false -> wf (grouped s ids).
Proof.
  intros Hwf Hacc. pose proof (named_is_leaf s ids) as Hleaf.
  specialize (fun t => Hleaf t Hwf Hacc).
  destruct Hwf as [Hd Hb Hpb Hgt Hch].
  constructor; simpl.
  - rewrite map_app, map_id_attach. simpl.
    apply NoDup_app; [assumption|repeat constructor; simpl; tauto|].
    intros a Ha [<-|[]]. apply in_map_iff in Ha as [t [E Ht]].
    specialize (Hb t Ht). rewrite new_group_id in E. lia.
  - intros t Ht. apply in_app_iff in Ht as [Ht|[<-|[]]].
    + apply in_map_iff in Ht as [t0 [<- Ht0]]. rewrite attach_id.
      specialize (Hb _ Ht0). lia.
    + rewrite new_group_id. lia.
  - intros t g Ht Hp. apply in_app_iff in Ht as [Ht|[<-|[]]].
    + apply in_map_iff in Ht as [t0 [<- Ht0]]. unfold attach in Hp.
      destruct (mem (id t0) ids).
      * simpl in Hp. injection Hp as <-. lia.
      * specialize (Hpb _ _ Ht0 Hp). lia.
    + rewrite new_group_parent in Hp. discriminate.
  - intros p Hp Hg. apply in_app_iff in Hp as [Hp|[<-|[]]].
    + apply in_map_iff in Hp as [t0 [<- Ht0]]. unfold attach in *.
      destruct (mem (id t0) ids) eqn:Hm.
      * destruct (Hleaf _ Ht0 Hm) as [Hg0 _]. simpl in Hg. congruence.
      * now apply Hgt.
    + apply new_group_parent.
  - intros p c Hp Hg Hc. apply in_app_iff in Hp as [Hp|[<-|[]]].
    + apply in_map_iff in Hp as [t0 [<- Ht0]].
      assert (E0 : attach (next_id s) ids t0 = t0).
      { unfold attach in *. destruct (mem (id t0) ids) eqn:Hm; [|reflexivity].
        destruct (Hleaf _ Ht0 Hm) as [Hg0 _]. simpl in Hg. congruence. }
      rewrite E0 in *.
      destruct (Hch t0 c Ht0 Hg Hc) as [t1 [Ht1 [E1 P1]]].
      exists t1. split; [|now split].
      apply in_app_iff. left. apply in_map_iff. exists t1. split; [|assumption].
      unfold attach. destruct (mem (id t1) ids) eqn:Hm; [|reflexivity].
      destruct (Hleaf _ Ht1 Hm) as [_ Hp1]. congruence.
    + rewrite new_group_children in Hc. rewrite new_group_id.
      apply rejected_false in Hacc as [_ Hgr].
      destruct (groupable_spec _ _ (Hgr _ Hc)) as [t1 [Hl _]].
      apply lookup_some in Hl as [Ht1 E1].
      exists (attach (next_id s) ids t1). split; [|split].
      * apply in_app_iff. left. now apply in_map.
      * now rewrite attach_id.
      * unfold attach. rewrite E1. apply mem_In in Hc. now rewrite Hc.
Qed.

(** Ungrouping an existing group keeps a state well formed. *)
Lemma wf_ungrouped s g t :
  wf s -> lookup g s = Some t -> is_group t = true -> wf (ungrouped s g).
Proof.
  intros [Hd Hb Hpb Hgt Hch] Hl Hg.
  apply lookup_some in Hl as [Ht Eg].
  assert (Hin : forall x, In x (filter (fun t' => negb (id t' =? g)%Z) (store s)) <->
                          In x (store s) /\ id x <> g).
  { intros x. rewrite filter_In, negb_true_iff, Z.eqb_neq. tauto. }
  assert (Hkeep : forall p, In p (store s) -> is_group p = true -> detach g p = p).
  { intros p Hp Hgp. unfold detach. destruct (has_parent g p) eqn:E; [|reflexivity].
    apply has_parent_true in E. rewrite (Hgt p Hp Hgp) in E. discriminate. }
  constructor; simpl.
  - rewrite map_id_detach. now apply distinct_ids_filter.
  - intros x Hx. apply in_map_iff in Hx as [x0 [<- Hx0]]. rewrite detach_id.
    apply Hin in Hx0 as [Hx0 _]. now apply Hb.
  - intros x p Hx Hp. apply in_map_iff in Hx as [x0 [<- Hx0]].
    apply Hin in Hx0 as [Hx0 _]. unfold detach in Hp.
    destruct (has_parent g x0); [discriminate|]. now apply (Hpb x0).
  - intros p Hp Hgp. apply in_map_iff in Hp as [p0 [<- Hp0]].
    apply Hin in Hp0 as [Hp0 _]. unfold detach in *.
    destruct (has_parent g p0); [reflexivity|]. now apply Hgt.
  - intros p c Hp Hgp Hc. apply in_map_iff in Hp as [p0 [<- Hp0]].
    apply Hin in Hp0 as [Hp0 Hne].
    assert (Hg0 : is_group p0 = true).
    { unfold detach in Hgp. now destruct (has_parent g p0). }
    rewrite (Hkeep p0 Hp0 Hg0) in *.
    destruct (Hch p0 c Hp0 Hg0 Hc) as [t1 [Ht1 [E1 P1]]].
    exists t1. split; [|now split].
    apply in_map_iff. exists t1. split.
    + unfold detach. destruct (has_parent g t1) eqn:E; [|reflexivity].
      apply has_parent_true in E. congruence.
    + apply Hin. split; [assumption|]. intros E.
      assert (t1 = t).
      { pose proof (lookup_in s t1 Hd Ht1) as L1.
        pose proof (lookup_in s t Hd Ht) as L2.
        rewrite E, <- Eg in L1. congruence. }
      subst t1. rewrite (Hgt t Ht Hg) in P1. discriminate.
Qed.

(** *** The generated client against the service *)

Lemma serve_group (request : GroupTransactionsRequest) (o : GroupApi.options) s :
  GroupApi.call_api (GroupApi._group_transactions_serialize request o)
    (GroupApi._request_timeout o) s
  = respond (group (ids request) s).
Proof. reflexivity. Qed.

Lemma serve_ungroup g (o : GroupApi.options) s :
  GroupApi.call_api (GroupApi._ungroup_transactions_serialize g o)
    (GroupApi._request_timeout o) s
  = respond (ungroup g s).
Proof. reflexivity. Qed.

(** A group call with valid arguments: a rejected request raises the
    validation error and leaves the state; an accepted one returns the new
    group and leaves the grouped state. *)
Lemma group_transactions_step (request : GroupTransactionsRequest) o s :
  GroupApi.validate_call o = Ok tt ->
  GroupApi.group_transactions request o s
  = if rejected s (nodup Z.eq_dec (ids request))
    then (Raise (ApiException ValidationError), s)
    else (Ok (Some (GroupTransactions201Response
                      (new_group s (nodup Z.eq_dec (ids request))))),
          grouped s (nodup Z.eq_dec (ids request))).
Proof.
  intros Hv. unfold GroupApi.group_transactions. rewrite Hv, serve_group.
  unfold group. destruct (rejected s _); reflexivity.
Qed.

(** An ungroup call with valid arguments: an id that is not a group's raises
    the not-found error and leaves the state; a group's id returns nothing
    and leaves the ungrouped state. *)
Lemma ungroup_transactions_step g o s :
  GroupApi.validate_call o = Ok tt ->
  GroupApi.ungroup_transactions g o s
  = match lookup g s with
    | Some t =>
        if is_group t then (Ok None, ungrouped s g)
        else (Raise (ApiException NotFoundError), s)
    | None => (Raise (ApiException NotFoundError), s)
    end.
Proof.
  intros Hv. unfold GroupApi.ungroup_transactions. rewrite Hv, serve_ungroup.
  unfold ungroup. destruct (lookup g s) as [t|]; [destruct (is_group t)|]; reflexivity.
Qed.

Lemma group_transactions_state (request : GroupTransactionsRequest) o s :
  snd (GroupApi.group_transactions request o s) = s
  \/ (rejected s (nodup Z.eq_dec (ids request)) = false
      /\ snd (GroupApi.group_transactions request o s)
         = grouped s (nodup Z.eq_dec (ids request))).
Proof.
  destruct (GroupApi.validate_call o) as [[]|e] eqn:Hv.
  - rewrite (group_transactions_step _ _ _ Hv).
    destruct (rejected s _); [now left|now right].
  - left. unfold GroupApi.group_transactions. now rewrite Hv.
Qed.

Lemma ungroup_transactions_state g o s :
  snd (GroupApi.ungroup_transactions g o s) = s
  \/ (exists t, lookup g s = Some t /\ is_group t = true
                /\ snd (GroupApi.ungroup_transactions g o s) = ungrouped s g).
Proof.
  destruct (GroupApi.validate_call o) as [[]|e] eqn:Hv.
  - rewrite (ungroup_transactions_step _ _ _ Hv).
    destruct (lookup g s) as [t|]; [|now left].
    destruct (is_group t) eqn:Hg; [right; now exists t|now left].
  - left. unfold GroupApi.ungroup_transactions. now rewrite Hv.
Qed.

(** Every state the calls lead to from a well-formed state is well formed. *)
Lemma reachable_wf s0 s : wf s0 -> reachable s0 s -> wf s.
Proof.
  intros H0 Hr. induction Hr as [|s request o r s' Hr IH Hc|s g o r s' Hr IH Hc].
  - assumption.
  - assert (E : s' = snd (GroupApi.group_transactions request o s)) by now rewrite Hc.
    destruct (group_transactions_state request o s) as [Hs|[Hacc Hs]];
      rewrite Hs in E; subst s'; [assumption|now apply wf_grouped].
  - assert (E : s' = snd (GroupApi.ungroup_transactions g o s)) by now rewrite Hc.
    destruct (ungroup_transactions_state g o s) as [Hs|[t [Hl [Hg Hs]]]];
      rewrite Hs in E; subst s'; [assumption|now apply (wf_ungrouped s g t)].
Qed.

(** *** Ids that are gone for good *)

Lemma lookup_none_intro i s :
  (forall t, In t (store s) -> id t <> i) -> lookup i s = None.
Proof.
  unfold lookup. induction (store s) as [|a l IH]; simpl; [reflexivity|].
  intros H. destruct (Z.eqb_spec (id a) i) as [E|E].
  - exfalso. apply (H a); [now left|assumption].
  - apply IH. intros t Ht. apply H. now right.
Qed.

Lemma gone_grouped g s ids : gone g s -> gone g (grouped s ids).
Proof.
  intros [Hb Hl]. split; simpl; [lia|].
  apply lookup_none_intro. simpl. intros t Ht.
  apply in_app_iff in Ht as [Ht|[<-|[]]].
  - apply in_map_iff in Ht as [t0 [<- Ht0]]. rewrite attach_id.
    now apply (lookup_none g s).
  - rewrite new_group_id. lia.
Qed.

Lemma gone_ungrouped g s g' : gone g s -> gone g (ungrouped s g').
Proof.
  intros [Hb Hl]. split; simpl; [assumption|].
  apply lookup_none_intro. simpl. intros t Ht.
  apply in_map_iff in Ht as [t0 [<- Ht0]]. rewrite detach_id.
  apply filter_In in Ht0 as [Ht0 _]. now apply (lookup_none g s).
Qed.

Lemma gone_reachable g s s' : gone g s -> reachable s s' -> gone g s'.
Proof.
  intros Hg Hr. induction Hr as [|s1 request o r s2 Hr IH Hc|s1 g' o r s2 Hr IH Hc].
  - assumption.
  - assert (E : s2 = snd (GroupApi.group_transactions request o s1)) by now rewrite Hc.
    destruct (group_transactions_state request o s1) as [Hs|[_ Hs]];
      rewrite Hs in E; subst s2; [assumption|now apply gone_grouped].
  - assert (E : s2 = snd (GroupApi.ungroup_transactions g' o s1)) by now rewrite Hc.
    destruct (ungroup_transactions_state g' o s1) as [Hs|[t [_ [_ Hs]]]];
      rewrite Hs in E; subst s2; [assumption|now apply gone_ungrouped].
Qed.

Lemma ungrouped_gone g s t : wf s -> lookup g s = Some t -> gone g (ungrouped s g).
Proof.
  intros Hwf Hl. apply lookup_some in Hl as [Ht E]. split; simpl.
  - rewrite <- E. now apply (wf_bound s Hwf).
  - apply lookup_none_intro. simpl. intros x Hx.
    apply in_map_iff in Hx as [x0 [<- Hx0]]. rewrite detach_id.
    apply filter_In in Hx0 as [_ Hne]. apply negb_true_iff in Hne.
    now apply Z.eqb_neq.
Qed.

Lemma ungroup_gone g o s :
  GroupApi.validate_call o = Ok tt -> gone g s ->
  GroupApi.ungroup_transactions g o s = (Raise (ApiException NotFoundError), s).
Proof.
  intros Hv [_ Hl]. rewrite (ungroup_transactions_step _ _ _ Hv). now rewrite Hl.
Qed.

(** C1: a group call that names fewer than two distinct ids fails and
    changes nothing: it raises the validation error of a 400 answer, or, when
    its own keyword arguments are invalid, pydantic's validation error before
    any request is sent. It never returns a created group. *)
Theorem group_of_fewer_than_two_ids_fails (request : GroupTransactionsRequest) o s :
  (List.length (nodup Z.eq_dec (ids request)) < 2)%nat ->
  exists e,
    GroupApi.group_transactions request o s = (Raise e, s)
    /\ (GroupApi.validate_call o = Ok tt -> e = ApiException ValidationError)
    /\ (GroupApi.validate_call o <> Ok tt -> e = PydanticValidationError).
Proof.
  intros Hfew. destruct (GroupApi.validate_call o) as [[]|e] eqn:Hv.
  - exists (ApiException ValidationError). split; [|split; congruence].
    rewrite (group_transactions_step _ _ _ Hv). now rewrite rejected_few.
  - exists e. split; [|split; [discriminate|]].
    + unfold GroupApi.group_transactions. now rewrite Hv.
    + intros _. exact (GroupApiFacts.validate_call_raises o e Hv).
Qed.

(** C4: an ungroup call issues a DELETE on /transactions/group/{id} with the
    id as the path parameter; on the id of an existing group it is answered
    204 and returns nothing, after which the id is no longer stored and every
    later ungroup call with it, in any state the calls lead to, raises the
    not-found error; on an id that is not a group's it raises the not-found
    error and changes nothing. *)
Theorem ungroup_existing_then_not_found s0 s g o :
  wf s0 -> reachable s0 s -> GroupApi.validate_call o = Ok tt ->
  (exists a,
      GroupApi._ungroup_transactions_serialize g o = GroupApi.param_serialize a
      /\ GroupApi.method a = "DELETE"
      /\ GroupApi.resource_path a = "/transactions/group/{id}"
      /\ GroupApi.path_params a = [("id", g)]
      /\ GroupApi.body a = None)
  /\ (forall t, lookup g s = Some t -> is_group t = true ->
        exists r s',
          GroupApi.ungroup_transactions_with_http_info g o s = (Ok r, s')
          /\ GroupApi.Api.status_code r = 204%Z
          /\ GroupApi.ungroup_transactions g o s = (Ok None, s')
          /\ lookup g s' = None
          /\ forall s'' o',
               reachable s' s'' -> GroupApi.validate_call o' = Ok tt ->
               GroupApi.ungroup_transactions g o' s''
               = (Raise (ApiException NotFoundError), s''))
  /\ ((forall t, lookup g s = Some t -> is_group t = false) ->
      GroupApi.ungroup_transactions g o s = (Raise (ApiException NotFoundError), s)).
Proof.
  intros H0 Hr Hv. pose proof (reachable_wf s0 s H0 Hr) as Hwf.
  split; [apply GroupApiFacts.ungroup_request|]. split.
  - intros t Hl Hg.
    pose proof (ungrouped_gone g s t Hwf Hl) as Hgone.
    eexists. exists (ungrouped s g). split; [|split; [|split; [|split]]].
    + unfold GroupApi.ungroup_transactions_with_http_info.
      rewrite Hv, serve_ungroup. unfold ungroup. rewrite Hl, Hg. reflexivity.
    + reflexivity.
    + rewrite (ungroup_transactions_step _ _ _ Hv). now rewrite Hl, Hg.
    + apply Hgone.
    + intros s'' o' Hr' Hv'. apply ungroup_gone; [assumption|].
      now apply (gone_reachable g (ungrouped s g)).
  - intros Hno. rewrite (ungroup_transactions_step _ _ _ Hv).
    destruct (lookup g s) as [t|] eqn:Hl; [|reflexivity].
    now rewrite (Hno t eq_refl).
Qed.

(** *** The amount of a group *)

Lemma filter_attached g ids l :
  (forall t, In t l -> has_parent g t = false) ->
  filter (has_parent g) (map (attach g ids) l)
  = map (set_parent (Some g)) (named ids l).
Proof.
  unfold named. induction l as [|a l IH]; simpl; intros H; [reflexivity|].
  rewrite IH by (intros t Ht; apply H; now right).
  unfold attach. destruct (mem (id a) ids) eqn:Hm; simpl.
  - unfold has_parent. simpl. now rewrite Z.eqb_refl.
  - now rewrite (H a (or_introl eq_refl)).
Qed.

Lemma no_child_of_next_id s t : wf s -> In t (store s) -> has_parent (next_id s) t = false.
Proof.
  intros Hwf Ht. unfold has_parent. destruct (parent_id t) as [p|] eqn:E; [|reflexivity].
  apply Z.eqb_neq. pose proof (wf_parent_bound s Hwf t p Ht E). lia.
Qed.

(** The children the grouped state records for the new group are the
    transactions the request names, each marked with the group's id. *)
Lemma kids_after_grouping s ids :
  wf s ->
  filter (has_parent (next_id s)) (store (grouped s ids))
  = map (set_parent (Some (next_id s))) (named ids (store s)).
Proof.
  intros Hwf. simpl. rewrite filter_app. simpl.
  replace (has_parent (next_id s) (new_group s ids)) with false
    by (unfold has_parent; now rewrite new_group_parent).
  rewrite app_nil_r. apply filter_attached. intros t. now apply no_child_of_next_id.
Qed.

Lemma uniform_set_parent c p kids :
  uniform c (map (set_parent p) kids) = uniform c kids.
Proof.
  unfold uniform. induction kids as [|k kids IH]; simpl; [reflexivity|now rewrite IH].
Qed.

Lemma total_set_parent s s' p kids :
  default_currency s' = default_currency s ->
  total s' (map (set_parent p) kids) = total s kids.
Proof.
  intros E. destruct kids as [|k ks]; unfold total; [simpl; now rewrite E|].
  cbn [map]. change (set_parent p k :: map (set_parent p) ks)
    with (map (set_parent p) (k :: ks)).
  rewrite uniform_set_parent, !map_map, E. reflexivity.
Qed.

Lemma named_ids s ids i :
  rejected s ids = false ->
  In i (map id (named ids (store s))) <-> In i ids.
Proof.
  intros Hacc. unfold named. rewrite in_map_iff. split.
  - intros [t [<- Ht]]. apply filter_In in Ht as [_ Hm]. now apply mem_In.
  - intros Hi. apply rejected_false in Hacc as [_ Hgr].
    destruct (groupable_spec _ _ (Hgr _ Hi)) as [t [Hl _]].
    apply lookup_some in Hl as [Ht E]. exists t. split; [assumption|].
    apply filter_In. split; [assumption|]. rewrite E. now apply mem_In.
Qed.

(** A successful group call, taken apart. *)
Lemma group_transactions_created (request : GroupTransactionsRequest) o s p s' :
  GroupApi.group_transactions request o s
  = (Ok (Some (GroupTransactions201Response p)), s') ->
  rejected s (nodup Z.eq_dec (ids request)) = false
  /\ p = new_group s (nodup Z.eq_dec (ids request))
  /\ s' = grouped s (nodup Z.eq_dec (ids request)).
Proof.
  destruct (GroupApi.validate_call o) as [[]|e] eqn:Hv.
  - rewrite (group_transactions_step _ _ _ Hv).
    destruct (rejected s _); [discriminate|]. intros [= <- <-]. now repeat split.
  - unfold GroupApi.group_transactions. rewrite Hv. discriminate.
Qed.

(** The amount and currency of a created group, in terms of the children the
    resulting state records for it: the plain sum in their common currency,
    or the sum of the converted amounts in the default currency. *)
Lemma group_amount_of_children s0 s (request : GroupTransactionsRequest) o p s' :
  wf s0 -> reachable s0 s ->
  GroupApi.group_transactions request o s
  = (Ok (Some (GroupTransactions201Response p)), s') ->
  let kids := filter (has_parent (id p)) (store s') in
  (forall i, In i (map id kids) <-> In i (ids request))
  /\ match kids with
     | [] => False
     | k :: _ =>
         if uniform (currency k) kids
         then currency p = currency k /\ amount p = sum (map amount kids)
         else currency p = default_currency s'
              /\ amount p
                 = sum (map (fun t => convert (currency t) (default_currency s') (amount t))
                          kids)
     end.
Proof.
  intros H0 Hr Hc. pose proof (reachable_wf s0 s H0 Hr) as Hwf.
  apply group_transactions_created in Hc as [Hacc [-> ->]].
  remember (nodup Z.eq_dec (ids request)) as n eqn:En.
  rewrite new_group_id, (kids_after_grouping s n Hwf).
  assert (Hids : forall i,
             In i (map id (map (set_parent (Some (next_id s))) (named n (store s))))
             <-> In i (ids request)).
  { intros i. rewrite map_map.
    change (fun x => id (set_parent (Some (next_id s)) x)) with id.
    rewrite (named_ids s n i Hacc), En. apply nodup_In. }
  cbv zeta. split; [exact Hids|].
  assert (Ht : (currency (new_group s n), amount (new_group s n))
               = total (grouped s n)
                   (map (set_parent (Some (next_id s))) (named n (store s)))).
  { rewrite (total_set_parent s) by reflexivity.
    rewrite new_group_amount, new_group_currency. now destruct (total s _). }
  destruct (map (set_parent (Some (next_id s))) (named n (store s))) as [|k ks] eqn:Ek.
  - apply rejected_false in Hacc as [Hlen _].
    destruct n as [|i n']; [simpl in Hlen; lia|].
    assert (Hi : In i (ids request)) by (apply (nodup_In Z.eq_dec); rewrite <- En; now left).
    apply Hids in Hi. destruct Hi.
  - unfold total in Ht.
    destruct (uniform (currency k) (k :: ks)); injection Ht as E1 E2; now split.
Qed.

End Facts.
End ServiceFacts.

(** ** The SDK against the service: listings *)

Module ListingFacts.
Import Service ServiceFacts.

Section Listing.
Context {policy : Policy} {validators : Sdk.Validators}.

Lemma decode_to_wire t : Sdk.TransactionsObject_of (to_wire t) = Ok (object_of t).
Proof.
  destruct t as [i a c d p st par grp ch].
  unfold to_wire, Sdk.TransactionsObject_of, Sdk.required, Sdk.optional, object_of.
  destruct grp, par; simpl;
    rewrite ?Sdk.validate_int_int, ?Sdk.validate_float_float,
      ?Sdk.validate_str_str, ?Sdk.validate_bool_bool; reflexivity.
Qed.

(** Every object the SDK returns lacks the attribute [children]. *)
Lemma no_children_attribute (x : Sdk.TransactionsObject) :
  Sdk.getattr x "children" = Raise (AttributeError "children").
Proof. reflexivity. Qed.

Lemma get_transactions_lists start_date end_date params q s :
  Sdk.search_params_of start_date end_date params = Ok q ->
  Sdk.get_transactions start_date end_date params s
  = (Ok (map object_of (listing q s)), s).
Proof.
  intros Hq. unfold Sdk.get_transactions. rewrite Hq.
  change (Sdk._make_request "GET" (VStr Sdk.LUNCHMONEY_TRANSACTIONS)
            {| Sdk.params := Some q; Sdk.payload := None; Sdk.json := None |} s)
    with (Ok (VDict [("transactions", VList (map to_wire (listing q s)))]), s).
  change (getitem (VDict [("transactions", VList (map to_wire (listing q s)))])
            Sdk.LUNCHMONEY_TRANSACTIONS)
    with (Ok (VList (map to_wire (listing q s)))).
  cbn [bind iter]. f_equal. apply comprehension_map. apply decode_to_wire.
Qed.

Lemma get_transaction_finds i s :
  Sdk.get_transaction i s
  = match lookup i s with
    | Some t => (Ok (object_of t), s)
    | None => (Raise (ApiException NotFoundError), s)
    end.
Proof.
  unfold Sdk.get_transaction.
  change (Sdk._make_request "GET" (VList [VStr Sdk.LUNCHMONEY_TRANSACTIONS; VInt i])
            Sdk.no_kwargs s)
    with (match lookup i s with
          | Some t => (Ok (to_wire t), s)
          | None => (Raise (ApiException NotFoundError), s)
          end).
  destruct (lookup i s) as [t|]; [|reflexivity]. now rewrite decode_to_wire.
Qed.

Lemma NoDup_map_Some {A} (l : list A) : NoDup l -> NoDup (map Some l).
Proof.
  induction 1 as [|a l Hna Hnd IH]; simpl; constructor; [|assumption].
  intros Hin. apply in_map_iff in Hin as [x [[= ->] Hx]]. contradiction.
Qed.

Lemma listing_ids_distinct q s :
  wf s -> NoDup (map Sdk.id (map object_of (listing q s))).
Proof.
  intros Hwf. rewrite map_map.
  change (fun x => Sdk.id (object_of x)) with (fun x => Some (id x)).
  rewrite <- (map_map id Some). apply NoDup_map_Some.
  apply distinct_ids_filter. apply (wf_distinct s Hwf).
Qed.

(** After a grouping, no listed transaction has one of the grouped ids. *)
Lemma listing_hides_children q s ids t :
  wf s -> rejected s ids = false ->
  In t (listing q (grouped s ids)) -> ~ In (id t) ids.
Proof.
  intros Hwf Hacc Ht Hin. unfold listing in Ht.
  apply filter_In in Ht as [Ht Hp]. apply andb_prop in Hp as [Hp _].
  apply parentless_true in Hp. simpl in Ht.
  apply in_app_iff in Ht as [Ht|[<-|[]]].
  - apply in_map_iff in Ht as [t0 [<- Ht0]]. rewrite attach_id in Hin.
    apply mem_In in Hin. unfold attach in Hp. rewrite Hin in Hp. discriminate.
  - rewrite new_group_id in Hin. apply rejected_false in Hacc as [_ Hgr].
    destruct (groupable_spec _ _ (Hgr _ Hin)) as [t1 [Hl _]].
    apply lookup_some in Hl as [Ht1 E]. pose proof (wf_bound s Hwf t1 Ht1). lia.
Qed.

(** After a grouping, the new group is listed when it is in range. *)
Lemma listing_shows_group q s ids :
  in_range q (new_group s ids) = true ->
  In (new_group s ids) (listing q (grouped s ids)).
Proof.
  intros Hr. unfold listing. apply filter_In. split.
  - simpl. apply in_app_iff. right. now left.
  - rewrite Hr. unfold parentless. now rewrite new_group_parent.
Qed.

(** After a grouping, each child is still found by its id, marked with the
    group's id. *)
Lemma child_addressable s ids i :
  wf s -> rejected s ids = false -> In i ids ->
  exists t, lookup i (grouped s ids) = Some t
            /\ id t = i /\ parent_id t = Some (next_id s).
Proof.
  intros Hwf Hacc Hi. pose proof (wf_grouped s ids Hwf Hacc) as Hwf'.
  apply rejected_false in Hacc as [_ Hgr].
  destruct (groupable_spec _ _ (Hgr _ Hi)) as [t0 [Hl _]].
  apply lookup_some in Hl as [Ht0 E].
  exists (attach (next_id s) ids t0). split; [|split].
  - rewrite <- E, <- (attach_id (next_id s) ids t0).
    apply lookup_in; [apply (wf_distinct _ Hwf')|].
    simpl. apply in_app_iff. left. now apply in_map.
  - now rewrite attach_id.
  - unfold attach. rewrite E. apply mem_In in Hi. now rewrite Hi.
Qed.

(** After an ungrouping, each child of the group is stored without a parent. *)
Lemma child_released s g t c :
  wf s -> lookup g s = Some t -> is_group t = true -> In c (children t) ->
  exists t1, In t1 (store (ungrouped s g)) /\ id t1 = c /\ parent_id t1 = None.
Proof.
  intros Hwf Hl Hg Hc. pose proof Hl as Hl'. apply lookup_some in Hl as [Ht E].
  destruct (wf_children s Hwf t c Ht Hg Hc) as [t0 [Ht0 [E0 P0]]].
  rewrite E in P0. exists (detach g t0). split; [|split].
  - simpl. apply in_map. apply filter_In. split; [assumption|].
    apply negb_true_iff, Z.eqb_neq. intros Eg.
    pose proof (lookup_in s t0 (wf_distinct s Hwf) Ht0) as L0.
    rewrite Eg, Hl' in L0. injection L0 as ->.
    rewrite (wf_group_top s Hwf t0 Ht0 Hg) in P0. discriminate.
  - now rewrite detach_id.
  - unfold detach. apply has_parent_true in P0. now rewrite P0.
Qed.

(** A successful ungroup call, taken apart. *)
Lemma ungroup_transactions_done g o s s' :
  GroupApi.ungroup_transactions g o s = (Ok None, s') ->
  exists t, lookup g s = Some t /\ is_group t = true /\ s' = ungrouped s g.
Proof.
  destruct (GroupApi.validate_call o) as [[]|e] eqn:Hv.
  - rewrite (ungroup_transactions_step _ _ _ Hv).
    destruct (lookup g s) as [t|]; [|discriminate].
    destruct (is_group t) eqn:Hg; [|discriminate].
    intros [= <-]. now exists t.
  - unfold GroupApi.ungroup_transactions. rewrite Hv. discriminate.
Qed.

(** C8, as amended: in every state the calls lead to from a well-formed one,
    after a successful group call a listing whose range covers the store has
    no object with one of the grouped ids and exactly one object for the new
    group, marked as a group and carrying its amount; that object, like every
    object of a listing, has no [children] attribute; the group returned by
    the call lists exactly the grouped ids, and each child is still returned
    by id, marked with the group's id. After a successful ungroup call the
    group's id is not found, and each of its children is listed again with
    no parent. *)
Theorem grouped_children_leave_and_rejoin_listing s0 s :
  wf s0 -> reachable s0 s ->
  (forall (request : GroupTransactionsRequest) o p s',
      GroupApi.group_transactions request o s
      = (Ok (Some (GroupTransactions201Response p)), s') ->
      is_group p = true
      /\ (forall i, In i (children p) <-> In i (ids request))
      /\ (forall i, In i (ids request) ->
            exists c, Sdk.get_transaction i s' = (Ok c, s')
                      /\ Sdk.id c = Some i /\ Sdk.parent_id c = Some (id p))
      /\ (forall start_date end_date params q,
            Sdk.search_params_of start_date end_date params = Ok q ->
            (forall t, In t (store s') -> in_range q t = true) ->
            exists objs,
              Sdk.get_transactions start_date end_date params s' = (Ok objs, s')
              /\ NoDup (map Sdk.id objs)
              /\ (forall x i, In x objs -> In i (ids request) -> Sdk.id x <> Some i)
              /\ (exists x, In x objs /\ Sdk.id x = Some (id p)
                            /\ Sdk.is_group x = Some true
                            /\ Sdk.amount x = amount p)
              /\ (forall x, In x objs ->
                    Sdk.getattr x "children" = Raise (AttributeError "children"))))
  /\ (forall g o t s',
        lookup g s = Some t ->
        GroupApi.ungroup_transactions g o s = (Ok None, s') ->
        Sdk.get_transaction g s' = (Raise (ApiException NotFoundError), s')
        /\ (forall start_date end_date params q,
              Sdk.search_params_of start_date end_date params = Ok q ->
              (forall x, In x (store s') -> in_range q x = true) ->
              exists objs,
                Sdk.get_transactions start_date end_date params s' = (Ok objs, s')
                /\ forall c, In c (children t) ->
                     exists x, In x objs /\ Sdk.id x = Some c
                               /\ Sdk.parent_id x = None)).
Proof.
  intros H0 Hr. pose proof (reachable_wf s0 s H0 Hr) as Hwf. split.
  - intros request o p s' Hc.
    apply group_transactions_created in Hc as [Hacc [-> ->]].
    remember (nodup Z.eq_dec (ids request)) as n eqn:En.
    pose proof (wf_grouped s n Hwf Hacc) as Hwf'.
    assert (Hn : forall i, In i n <-> In i (ids request))
      by (intros i; rewrite En; apply nodup_In).
    rewrite new_group_is_group, new_group_children, new_group_id.
    split; [reflexivity|]. split; [exact Hn|]. split.
    + intros i Hi. apply Hn in Hi.
      destruct (child_addressable s n i Hwf Hacc Hi) as [t [Hl [Ei Pi]]].
      exists (object_of t). rewrite get_transaction_finds, Hl.
      split; [reflexivity|]. simpl. now rewrite Ei, Pi.
    + intros start_date end_date params q Hq Hrange.
      exists (map object_of (listing q (grouped s n))).
      split; [now apply get_transactions_lists|].
      split; [now apply listing_ids_distinct|]. split; [|split].
      * intros x i Hx Hi E. apply in_map_iff in Hx as [t [<- Ht]].
        simpl in E. injection E as E. apply Hn in Hi. rewrite <- E in Hi.
        now apply (listing_hides_children q s n t Hwf Hacc).
      * exists (object_of (new_group s n)). split; [|split; [|split]].
        -- apply in_map. apply listing_shows_group. apply Hrange.
           simpl. apply in_app_iff. right. now left.
        -- simpl. now rewrite new_group_id.
        -- simpl. now rewrite new_group_is_group.
        -- reflexivity.
      * intros x _. apply no_children_attribute.
  - intros g o t s' Hl Hc.
    apply ungroup_transactions_done in Hc as [t' [Hl' [Hg ->]]].
    rewrite Hl in Hl'. injection Hl' as <-. split.
    + rewrite get_transaction_finds.
      destruct (ungrouped_gone g s t Hwf Hl) as [_ Hgone]. now rewrite Hgone.
    + intros start_date end_date params q Hq Hrange.
      exists (map object_of (listing q (ungrouped s g))).
      split; [now apply get_transactions_lists|].
      intros c Hc. destruct (child_released s g t c Hwf Hl Hg Hc) as [t1 [Ht1 [E1 P1]]].
      exists (object_of t1). split; [|split].
      * apply in_map. unfold listing. apply filter_In. split; [assumption|].
        rewrite (Hrange t1 Ht1). apply parentless_true in P1. now rewrite P1.
      * simpl. now rewrite E1.
      * simpl. assumption.
Qed.

End Listing.
End ListingFacts.

(** ** Worked scenarios *)

Module Scenario.
Import Model Service ServiceFacts ListingFacts Samples.

Lemma wf_two_usd : wf two_usd.
Proof.
  constructor; simpl.
  - repeat constructor; simpl; intuition discriminate.
  - intros t [<-|[<-|[]]]; simpl; lia.
  - intros t g [<-|[<-|[]]]; simpl; discriminate.
  - intros p [<-|[<-|[]]]; simpl; discriminate.
  - intros p c [<-|[<-|[]]]; simpl; discriminate.
Qed.

Lemma wf_three : wf three.
Proof.
  constructor; simpl.
  - repeat constructor; simpl; intuition discriminate.
  - intros t [<-|[<-|[<-|[]]]]; simpl; lia.
  - intros t g [<-|[<-|[<-|[]]]]; simpl; discriminate.
  - intros p [<-|[<-|[<-|[]]]]; simpl; discriminate.
  - intros p c [<-|[<-|[<-|[]]]]; simpl; discriminate.
Qed.

Lemma reachable_two_usd_grouped : @reachable flat two_usd two_usd_grouped.
Proof.
  apply (reach_group two_usd two_usd (request [10; 11]%Z) defaults
           (fst (group_call (request [10; 11]%Z) defaults two_usd))).
  - apply reach_start.
  - reflexivity.
Qed.

(** C3: the amount of the group a successful call returns is the sum of the
    amounts of the children the resulting state records for it, in their
    common currency, or the sum of their converted amounts in the user's
    default currency when the currencies are mixed; those children are the
    transactions the request names. In particular, grouping transactions 10
    and 11 of 5.00 USD and 3.00 USD yields a group of 8.00 USD. *)
Theorem group_amount_is_sum_of_children :
  (forall (policy : Policy) s0 s (r : GroupTransactionsRequest) o p s',
      wf s0 -> reachable s0 s ->
      GroupApi.group_transactions r o s
      = (Ok (Some (GroupTransactions201Response p)), s') ->
      let kids := filter (has_parent (id p)) (store s') in
      (forall i, In i (map id kids) <-> In i (ids r))
      /\ match kids with
         | [] => False
         | k :: _ =>
             if uniform (currency k) kids
             then currency p = currency k /\ amount p = sum (map amount kids)
             else currency p = default_currency s'
                  /\ amount p
                     = sum (map (fun t =>
                                   convert (currency t) (default_currency s') (amount t))
                              kids)
         end)
  /\ (exists p s',
        group_call (request [10; 11]%Z) defaults two_usd
        = (Ok (Some (GroupTransactions201Response p)), s')
        /\ amount p = 800%Z /\ currency p = "USD").
Proof.
  split.
  - intros policy s0 s r o p s'. apply group_amount_of_children.
  - eexists. eexists. split; [reflexivity|]. split; reflexivity.
Qed.

Lemma group_amount_witness :
  wf two_usd /\ @reachable flat two_usd two_usd
  /\ amount (new_group two_usd [10; 11]%Z)
     = sum (map amount (filter (has_parent 12) (store two_usd_grouped))).
Proof.
  split; [exact wf_two_usd|]. split; [apply reach_start|].
  exact (proj2 (proj2 (proj1 group_amount_is_sum_of_children flat two_usd two_usd
                         (request [10; 11]%Z) defaults
                         (new_group two_usd [10; 11]%Z) two_usd_grouped
                         wf_two_usd (reach_start two_usd) eq_refl))).
Defined.

Lemma group_of_fewer_than_two_ids_witness :
  (List.length (nodup Z.eq_dec (ids (request [10; 10]%Z))) < 2)%nat
  /\ group_call (request [10; 10]%Z) defaults two_usd
     = (Raise (ApiException ValidationError), two_usd).
Proof.
  assert (H : (List.length (nodup Z.eq_dec (ids (request [10; 10]%Z))) < 2)%nat)
    by (simpl; lia).
  split; [exact H|]. unfold group_call.
  destruct (group_of_fewer_than_two_ids_fails (request [10; 10]%Z) defaults two_usd H)
    as [e [Hc [He _]]].
  rewrite Hc, (He eq_refl). reflexivity.
Defined.

Lemma ungroup_existing_then_not_found_witness :
  wf two_usd /\ @reachable flat two_usd two_usd_grouped
  /\ GroupApi.validate_call defaults = Ok tt
  /\ exists s',
       ungroup_call 12%Z defaults two_usd_grouped = (Ok None, s')
       /\ ungroup_call 12%Z defaults s'
          = (Raise (ApiException NotFoundError), s').
Proof.
  split; [exact wf_two_usd|]. split; [exact reachable_two_usd_grouped|].
  split; [reflexivity|]. unfold ungroup_call.
  destruct (ungroup_existing_then_not_found two_usd two_usd_grouped 12%Z defaults
              wf_two_usd reachable_two_usd_grouped eq_refl) as [_ [Hex _]].
  destruct (Hex (new_group two_usd [10; 11]%Z) eq_refl eq_refl)
    as [r [s' [_ [_ [Hu [_ Hrep]]]]]].
  exists s'. split; [exact Hu|].
  apply Hrep; [apply reach_start|reflexivity].
Defined.

Lemma group_call_request_and_statuses_witness :
  GroupApi.validate_call defaults = Ok tt
  /\ group_call (request [10; 10]%Z) defaults two_usd
     = (Raise (ApiException ValidationError), two_usd).
Proof.
  split; [reflexivity|].
  exact (proj1 (proj2
           (proj2 (GroupApiFacts.group_call_request_and_statuses
                     (request [10; 10]%Z) defaults)
              two_usd
              {| GroupApi.REST.status := 400%Z; GroupApi.REST.headers := [];
                 GroupApi.REST.data := Failure "invalid transaction ids" |}
              two_usd eq_refl eq_refl))
           eq_refl).
Defined.

(** C8, as stated, fails: after grouping 1, 2 and 3 the listing is the one
    object of group 4, and it has no [children] attribute. *)
Lemma listing_object_has_no_children :
  three_grouped_listing
  = Ok [object_of (new_group three [1; 2; 3]%Z)]
  /\ ~ listing_reports_children three_grouped_listing 4 [1; 2; 3]%Z.
Proof.
  split; [reflexivity|].
  intros [objs [x [_ [_ [_ H]]]]]. rewrite no_children_attribute in H. discriminate.
Qed.

Lemma reachable_three_grouped : @reachable flat three three_grouped.
Proof.
  apply (reach_group three three (request [1; 2; 3]%Z) defaults
           (fst (group_call (request [1; 2; 3]%Z) defaults three))).
  - apply reach_start.
  - reflexivity.
Qed.

Lemma grouped_children_leave_and_rejoin_listing_witness :
  wf three /\ @reachable flat three three_grouped
  /\ (exists c,
        @Sdk.get_transaction (@core flat) strict_validators 2%Z three_grouped
        = (Ok c, three_grouped)
        /\ Sdk.id c = Some 2%Z /\ Sdk.parent_id c = Some 4%Z)
  /\ (exists objs,
        @Sdk.get_transactions (@core flat) strict_validators None None None three_grouped
        = (Ok objs, three_grouped)
        /\ NoDup (map Sdk.id objs))
  /\ (exists objs x,
        @Sdk.get_transactions (@core flat) strict_validators None None None
          (ungrouped three_grouped 4)
        = (Ok objs, ungrouped three_grouped 4)
        /\ In x objs /\ Sdk.id x = Some 2%Z /\ Sdk.parent_id x = None).
Proof.
  split; [exact wf_three|]. split; [exact reachable_three_grouped|].
  destruct (proj1 (grouped_children_leave_and_rejoin_listing
                     (validators := strict_validators)
                     three three wf_three (reach_start three))
              (request [1; 2; 3]%Z) defaults (new_group three [1; 2; 3]%Z)
              three_grouped eq_refl)
    as [_ [_ [Hchild Hlist]]].
  destruct (proj2 (grouped_children_leave_and_rejoin_listing
                     (validators := strict_validators)
                     three three_grouped wf_three reachable_three_grouped)
              4%Z defaults (new_group three [1; 2; 3]%Z)
              (ungrouped three_grouped 4) eq_refl eq_refl)
    as [_ Hback].
  split; [|split].
  - apply (Hchild 2%Z). simpl. tauto.
  - destruct (Hlist None None None [] eq_refl (fun t _ => eq_refl))
      as [objs [Hobjs [Hnd _]]].
    exists objs. now split.
  - destruct (Hback None None None [] eq_refl (fun t _ => eq_refl))
      as [objs [Hobjs Hkids]].
    destruct (Hkids 2%Z) as [x Hx]; [simpl; tauto|].
    exists objs, x. now split.
Defined.

(** C6, as stated, fails: the only key of this encoding is [transactions],
    which is the in-memory name of the field. *)
Lemma wire_names_are_attribute_names :
  ~ wire_names_distinct
      ({| transactions := [10%Z]; skipped_existing_external_ids := None |}
       : CreateNewTransactions201Response Z Z).
Proof.
  intros H. apply (H "transactions"); simpl; tauto.
Qed.

Lemma from_dict_to_dict_without_skipped_witness :
  from_dict
    (VDict (to_dict
      ({| transactions := [10%Z; 11%Z]; skipped_existing_external_ids := Some [] |}
       : CreateNewTransactions201Response Z Z)))
  = Ok (Some {| transactions := [10%Z; 11%Z]; skipped_existing_external_ids := Some [] |}).
Proof.
  apply ModelFacts.from_dict_to_dict_without_skipped.
  - intros t. reflexivity.
  - right. reflexivity.
Defined.

Lemma from_dict_without_transactions_witness :
  exists e,
    (from_dict (VDict [("skipped_existing_external_ids", VList [])])
     : result (option (CreateNewTransactions201Response Z Z)))
    = Raise e.
Proof.
  apply ModelFacts.from_dict_without_transactions. left. reflexivity.
Defined.

(** C2, at its failing input: a model with one transaction and one skipped
    id does not survive the round trip. *)
Theorem round_trip_raises_name_error :
  (from_dict
     (VDict (to_dict
       ({| transactions := [10%Z]; skipped_existing_external_ids := Some [11%Z] |}
        : CreateNewTransactions201Response Z Z)))
   : result (option (CreateNewTransactions201Response Z Z)))
  = Raise (NameError "SkippedExistingExternalIdObject").
Proof. reflexivity. Qed.

Lemma get_transactions_needs_transactions_key_witness :
  @Sdk.get_transactions canned_core strict_validators None None None
    (VDict [("error", VStr "unauthorized")])
  = (Raise (KeyError "transactions"), VDict [("error", VStr "unauthorized")]).
Proof.
  exact (@SdkFacts.get_transactions_needs_transactions_key canned_core strict_validators
           None None None [] (VDict [("error", VStr "unauthorized")])
           [("error", VStr "unauthorized")] (VDict [("error", VStr "unauthorized")])
           eq_refl eq_refl eq_refl).
Defined.

Lemma invalid_host_index_sends_nothing_witness :
  group_call (request [10; 11]%Z)
    {| GroupApi._request_timeout := None; GroupApi.request_auth := None;
       GroupApi._content_type := None; GroupApi._headers := None;
       GroupApi._host_index := 1 |} two_usd
  = (Raise PydanticValidationError, two_usd).
Proof.
  refine (proj1 (@GroupApiFacts.invalid_host_index_sends_nothing (@client flat)
                   (request [10; 11]%Z) 12%Z _ two_usd _)).
  simpl. discriminate.
Defined.

Lemma upsert_budget_category_group_witness :
  @Sdk.upsert_budget canned_core "2021-04-01" 7%Z 1250%Z None (VDict [("budget", VInt 1%Z)])
  = (Raise (KeyError "category_group"), VDict [("budget", VInt 1%Z)]).
Proof.
  exact (@SdkFacts.upsert_budget_category_group canned_core "2021-04-01" 7%Z 1250%Z None
           (VDict [("budget", VInt 1%Z)]) [("budget", VInt 1%Z)]
           (VDict [("budget", VInt 1%Z)]) eq_refl).
Defined.

Lemma from_dict_never_fills_skipped_witness :
  from_dict (VDict [("transactions", VList [id_to_dict 10])])
  = Ok (Some ({| transactions := [10%Z]; skipped_existing_external_ids := None |}
              : CreateNewTransactions201Response Z Z))
  /\ (skipped_existing_external_ids
        ({| transactions := [10%Z]; skipped_existing_external_ids := None |}
         : CreateNewTransactions201Response Z Z) = None
      \/ skipped_existing_external_ids
           ({| transactions := [10%Z]; skipped_existing_external_ids := None |}
            : CreateNewTransactions201Response Z Z) = Some []).
Proof.
  split; [reflexivity|].
  exact (ModelFacts.from_dict_never_fills_skipped
           (VDict [("transactions", VList [id_to_dict 10])])
           ({| transactions := [10%Z]; skipped_existing_external_ids := None |}
            : CreateNewTransactions201Response Z Z) eq_refl).
Defined.

Lemma from_dict_reads_declared_keys_only_witness :
  (from_dict (VDict [("has_more", VBool false); ("transactions", VList [id_to_dict 10])])
   : result (option (CreateNewTransactions201Response Z Z)))
  = from_dict (VDict [("transactions", VList [id_to_dict 10])]).
Proof.
  exact (@ModelFacts.from_dict_reads_declared_keys_only Z Z id_model id_model rebuilt
           [("has_more", VBool false); ("transactions", VList [id_to_dict 10])]
           [("transactions", VList [id_to_dict 10])] eq_refl eq_refl).
Defined.

Lemma from_json_to_json_round_trip_witness :
  from_json (fun _ => Ok (VDict [("transactions", VList [id_to_dict 10])]))
    (to_json (fun _ => "{[transactions]: [{[id]: 10}]}")
       ({| transactions := [10%Z]; skipped_existing_external_ids := None |}
        : CreateNewTransactions201Response Z Z))
  = Ok (Some {| transactions := [10%Z]; skipped_existing_external_ids := None |}).
Proof.
  apply ModelFacts.from_json_to_json_round_trip.
  - reflexivity.
  - intros t. reflexivity.
  - left. reflexivity.
Defined.

Lemma from_dict_item_decoded_to_none_witness :
  exists e,
    (from_dict (VDict [("transactions", VList [id_to_dict 10; VNone])])
     : result (option (CreateNewTransactions201Response Z Z)))
    = Raise e.
Proof.
  apply (@ModelFacts.from_dict_item_decoded_to_none Z Z id_model id_model rebuilt
           [("transactions", VList [id_to_dict 10; VNone])] [id_to_dict 10; VNone] VNone).
  - reflexivity.
  - simpl. tauto.
  - reflexivity.
Defined.

Lemma non_positive_timeout_sends_nothing_witness :
  group_call (request [10; 11]%Z)
    {| GroupApi._request_timeout := Some (GroupApi.Total 0%Z);
       GroupApi.request_auth := None; GroupApi._content_type := None;
       GroupApi._headers := None; GroupApi._host_index := 0 |} two_usd
  = (Raise PydanticValidationError, two_usd).
Proof.
  refine (proj1 (@GroupApiFacts.non_positive_timeout_sends_nothing (@client flat)
                   flat_raw (request [10; 11]%Z) 12%Z _ two_usd _)).
  reflexivity.
Defined.

Lemma params_override_the_dates_witness :
  exists dates,
    @Sdk.TransactionParamsGet_dict strict_validators
      (Some (Sdk.ADate "2024-01-01")) (Some (Sdk.ADate "2024-01-31")) = Ok dates
    /\ forall k,
         dict_get k [("start_date", VStr "2023-12-01"); ("end_date", VDate "2024-01-31");
                     ("limit", VInt 10)]
         = match dict_get k [("start_date", VStr "2023-12-01"); ("limit", VInt 10)] with
           | Some v => Some v
           | None => dict_get k dates
           end.
Proof.
  apply (@SdkFacts.params_override_the_dates strict_validators
           (Some (Sdk.ADate "2024-01-01")) (Some (Sdk.ADate "2024-01-31"))
           [("start_date", VStr "2023-12-01"); ("limit", VInt 10)]).
  - repeat constructor; simpl; intuition discriminate.
  - reflexivity.
Defined.

Lemma unreadable_date_sends_nothing_witness :
  @Sdk.get_transactions canned_core dated_validators
    (Some (Sdk.AText "yesterday")) None None (VDict [])
  = (Raise PydanticValidationError, VDict []).
Proof.
  apply (@SdkFacts.unreadable_date_sends_nothing canned_core dated_validators
           "yesterday").
  - reflexivity.
  - left. reflexivity.
Defined.

Lemma get_transactions_decodes_every_item_witness :
  exists q response_data items,
    @Sdk.search_params_of strict_validators None None None = Ok q
    /\ @Sdk._make_request canned_core "GET" (VStr "transactions")
         {| Sdk.params := Some q; Sdk.payload := None; Sdk.json := None |}
         (VDict [("transactions", VList [VDict listed_group])])
       = (Ok response_data, VDict [("transactions", VList [VDict listed_group])])
    /\ (transactions <- getitem response_data "transactions" ;; iter transactions)
       = Ok items
    /\ Forall2 (fun item x => @Sdk.TransactionsObject_of strict_validators item = Ok x)
         items [listed_group_object].
Proof.
  exact (@SdkFacts.get_transactions_decodes_every_item canned_core strict_validators
           None None None (VDict [("transactions", VList [VDict listed_group])])
           [listed_group_object]
           (VDict [("transactions", VList [VDict listed_group])]) eq_refl).
Defined.

Lemma get_transaction_needs_a_full_dictionary_witness :
  @Sdk.get_transaction canned_core strict_validators 4%Z
    (VDict [("id", VInt 4); ("amount", VFloat 400)])
  = (Raise PydanticValidationError, VDict [("id", VInt 4); ("amount", VFloat 400)]).
Proof.
  exact (@SdkFacts.get_transaction_needs_a_full_dictionary canned_core strict_validators
           4%Z (VDict [("id", VInt 4); ("amount", VFloat 400)])
           (VDict [("id", VInt 4); ("amount", VFloat 400)])
           (VDict [("id", VInt 4); ("amount", VFloat 400)]) eq_refl).
Defined.

Lemma transactions_object_ignores_undeclared_keys_witness :
  @Sdk.TransactionsObject_of strict_validators (VDict listed_group)
  = @Sdk.TransactionsObject_of strict_validators (VDict listed_group_bare).
Proof.
  apply (@SdkFacts.transactions_object_ignores_undeclared_keys strict_validators).
  intros k Hk. simpl in Hk.
  repeat (destruct Hk as [<-|Hk]; [reflexivity|]). destruct Hk.
Defined.

Lemma upsert_budget_needs_a_dictionary_witness :
  @Sdk.upsert_budget canned_core "2021-04-01" 7%Z 1250%Z None (VList [])
  = (Raise TypeError, VList []).
Proof.
  apply (@SdkFacts.upsert_budget_needs_a_dictionary canned_core "2021-04-01" 7%Z 1250%Z
           None (VList []) (VList []) (VList [])).
  - reflexivity.
  - discriminate.
Defined.

Lemma get_budgets_on_a_dictionary_witness :
  @Budgets.get_budgets canned_core strict_validators plain_mappings
    "2021-04-01" "2021-04-30" (VDict [("error", VStr "unauthorized")])
  = (Raise TypeError, VDict [("error", VStr "unauthorized")]).
Proof.
  exact (@BudgetsFacts.get_budgets_on_a_dictionary canned_core strict_validators
           plain_mappings "2021-04-01" "2021-04-30"
           (VDict [("error", VStr "unauthorized")]) [("error", VStr "unauthorized")]
           (VDict [("error", VStr "unauthorized")]) eq_refl).
Defined.

Lemma get_budgets_decodes_every_item_witness :
  exists response_data items,
    @Sdk._make_request canned_core "GET" (VList [VStr "budgets"])
      {| Sdk.params := Some [("start_date", VDate "2021-04-01");
                             ("end_date", VDate "2021-04-30")];
         Sdk.payload := None; Sdk.json := None |} (VList [food_budget_item])
    = (Ok response_data, VList [food_budget_item])
    /\ iter response_data = Ok items
    /\ Forall2
         (fun item b =>
            @Budgets.BudgetObject_of strict_validators plain_mappings item = Ok b)
         items [food_budget].
Proof.
  exact (@BudgetsFacts.get_budgets_decodes_every_item canned_core strict_validators
           plain_mappings "2021-04-01" "2021-04-30" (VList [food_budget_item])
           [food_budget] (VList [food_budget_item]) eq_refl).
Defined.

Lemma budget_object_needs_its_required_fields_witness :
  @Budgets.BudgetObject_of strict_validators plain_mappings
    (VDict [("category_name", VStr "Food"); ("is_income", VBool false);
            ("exclude_from_budget", VBool false); ("exclude_from_totals", VBool false);
            ("data", VNone)])
  = Raise PydanticValidationError.
Proof.
  apply (@BudgetsFacts.budget_object_needs_its_required_fields strict_validators
           plain_mappings _ "data").
  - simpl. tauto.
  - right. reflexivity.
Defined.

Lemma empty_text_for_list_witness :
  (@from_dict Z Z id_model id_model shipped (VDict [("transactions", VStr "")])
   = Raise PydanticUserError
   /\ @from_dict Z Z id_model id_model shipped (VDict [("transactions", VList [])])
      = Raise PydanticUserError)
  /\ @from_dict Z Z id_model id_model rebuilt (VDict [("transactions", VStr "")])
     = Ok (Some {| transactions := []; skipped_existing_external_ids := None |}).
Proof.
  split.
  - exact (proj1 (@ModelFacts.empty_text_for_list_is_no_decode_error
                    Z Z id_model id_model shipped) eq_refl).
  - exact (proj1 (proj2 (@ModelFacts.empty_text_for_list_is_no_decode_error
                           Z Z id_model id_model rebuilt)) rebuilt_complete).
Defined.

Lemma with_http_info_reads_what_without_preload_returns_witness :
  exists http_response w' response_data,
    @GroupApi.group_transactions_without_preload_content (@client flat) flat_raw
      (request [10; 11]%Z) defaults two_usd = (Ok http_response, w')
    /\ GroupApi.response response_data = http_response
    /\ @GroupApi.group_transactions_with_http_info (@client flat)
         (request [10; 11]%Z) defaults two_usd
       = match GroupApi.read response_data w' with
         | (Ok r, w'') =>
             (GroupApi.response_deserialize r GroupApi.group_response_types_map, w'')
         | (Raise e, w'') => (Raise e, w'')
         end.
Proof.
  destruct (proj1 (@GroupApiFacts.with_http_info_reads_what_without_preload_returns
                     (@client flat) flat_raw (request [10; 11]%Z) 12%Z defaults two_usd)
              _ _ eq_refl) as (response_data & Hraw & Hinfo).
  eexists. eexists. exists response_data.
  split; [reflexivity|]. split; [exact Hraw|exact Hinfo].
Defined.

End Scenario.
